(** * The XGBoost-to-source converter (converter/xgb_language_converter.py)

    A shallow embedding of [XGBoostLanguageConverter] and of the notebook
    helper [test_col2i64_list_of_field] (converter/cached_features.py).

    - Python floats are IEEE-754 binary64 values, modelled with the
      Standard Library's executable [spec_float] (precision 53, emax 1024);
      [value * 10000000000] is the correctly rounded binary64 product.
      The numbers of a dump ([leaf], [split_condition]) and of a test
      vector are floats.
    - Python exceptions are the [Raise] side of a result type: a call that
      raises returns no text at all.
    - A tree node is the dictionary [json.loads] returns for one node of the
      dump; each of the four keys the converter reads may be absent.
    - The template set is a finite map from role name to template text.
    - Files are modelled by their contents: reading by a function from a
      path to the text found there, writing by the list of files written;
      the cache of feature names by the dictionary it stores. *)

From Stdlib Require Import ZArith QArith Qabs Qpower SpecFloat DecimalString
  DecimalZ DecimalPos String Ascii Lia.
From stdpp Require Import gmap strings list.

Close Scope Q_scope.
Open Scope Z_scope.

(** ** Exceptions and results *)

Inductive exn : Type :=
| KeyError (key : string)
| IndexError
| ValueError
| OverflowError
| NotImplementedError
| FormatSpecNotModelled.

Inductive result (A : Type) : Type :=
| Ok (a : A)
| Raise (e : exn).

Arguments Ok {A} a.
Arguments Raise {A} e.

Definition bind {A B : Type} (r : result A) (k : A -> result B) : result B :=
  match r with
  | Ok a => k a
  | Raise e => Raise e
  end.

Notation "'let!' x ':=' r 'in' k" := (bind r (fun x => k))
  (at level 10, x name, r at level 100, k at level 200).

Definition is_ok {A : Type} (r : result A) : bool :=
  match r with Ok _ => true | Raise _ => false end.

(** ** Characters the source writes with escapes *)

Definition nl : string := String "010"%char EmptyString.
Definition tab : string := String "009"%char EmptyString.
Definition dq : string := String "034"%char EmptyString.

(** ** binary64 arithmetic *)

Module F64.

Definition float64 : Type := spec_float.

Definition prec : Z := 53.
Definition emax : Z := 1024.

(** [x * y] on Python floats. *)
Definition mul (x y : float64) : float64 := SFmul prec emax x y.

(** The float a Python [int] becomes when it meets a float operand. *)
Definition of_int (z : Z) : float64 := binary_normalize prec emax z 0 false.

(** [m / 2^k] rounded to the nearest integer, ties to the even one. *)
Definition round_half_even (m : Z) (k : positive) : Z :=
  let q := m / 2 ^ Zpos k in
  let r := m mod 2 ^ Zpos k in
  match 2 * r ?= 2 ^ Zpos k with
  | Lt => q
  | Gt => q + 1
  | Eq => if Z.even q then q else q + 1
  end.

(** [np.round(x, 0)]: the nearest integral float, ties to even; NaN, the
    infinities, the zeros and floats that are integral already are
    returned as they are, and the sign is kept (a small negative value
    rounds to [-0.0]). *)
Definition np_round (x : float64) : float64 :=
  match x with
  | S754_finite s m (Zneg k) =>
      match round_half_even (Zpos m) k with
      | Zpos n => S754_finite s n 0
      | _ => S754_zero s
      end
  | _ => x
  end.

(** [int(x)]: truncation toward zero; [int(nan)] raises ValueError and
    [int(inf)] raises OverflowError. *)
Definition to_int (x : float64) : result Z :=
  match x with
  | S754_zero _ => Ok 0
  | S754_infinity _ => Raise OverflowError
  | S754_nan => Raise ValueError
  | S754_finite s m e => Ok (cond_Zopp s (Z.shiftl (Zpos m) e))
  end.

(** [x >= 0] on a float ([-0.0 >= 0] is true, [nan >= 0] is false). *)
Definition nonneg (x : float64) : bool :=
  match x with
  | S754_zero _ => true
  | S754_infinity s => negb s
  | S754_nan => false
  | S754_finite s _ _ => negb s
  end.

(** The rational number [m * 2^e] a finite float stands for. *)
Definition to_Q (x : float64) : Q :=
  match x with
  | S754_finite s m (Zneg k) => Qmake (cond_Zopp s (Zpos m)) (2 ^ k)%positive
  | S754_finite s m e => inject_Z (cond_Zopp s (Zpos m) * 2 ^ e)
  | _ => 0%Q
  end.

Definition is_finite (x : float64) : bool :=
  match x with
  | S754_zero _ | S754_finite _ _ _ => true
  | _ => false
  end.

End F64.

Import F64.

(** The integer [10000000000] of the source, as the float operand the
    multiplication sees. *)
Definition ten_pow_10 : float64 := of_int 10000000000.

(** [int(np.round(value * multiplier, 0))], the expression every scaling
    site of the source repeats. *)
Definition int_round_mul (value multiplier : float64) : result Z :=
  to_int (np_round (mul value multiplier)).

(** [str(n)] for an integer. *)
Definition str (n : Z) : string := NilZero.string_of_int (Z.to_int n).

(** ** Python built-ins the converter relies on

    A string is a sequence of code points below 256. *)

Module Py.

Definition is_digit (c : ascii) : bool :=
  let n := nat_of_ascii c in (48 <=? n)%nat && (n <=? 57)%nat.

Definition digit_value (c : ascii) : Z := Z.of_nat (nat_of_ascii c) - 48.

(** White space as [int] sees it around a literal: the ASCII characters
    tab to carriage return and the space, and the two Latin-1 characters
    that Unicode counts as white space. *)
Definition is_space (c : ascii) : bool :=
  let n := nat_of_ascii c in
  ((9 <=? n)%nat && (n <=? 13)%nat) || (n =? 32)%nat
  || (n =? 133)%nat || (n =? 160)%nat.

Fixpoint lstrip (s : string) : string :=
  match s with
  | String c s' => if is_space c then lstrip s' else s
  | EmptyString => EmptyString
  end.

Fixpoint rstrip (s : string) : string :=
  match s with
  | String c s' =>
      match rstrip s' with
      | EmptyString => if is_space c then EmptyString else String c EmptyString
      | r => String c r
      end
  | EmptyString => EmptyString
  end.

Definition strip (s : string) : string := rstrip (lstrip s).

(** The digits of a decimal literal: at least one digit, single
    underscores between digits only. [count] is the number of digits read. *)
Fixpoint digits (s : string) (acc : Z) (count : nat) (after_digit : bool)
  : option (Z * nat) :=
  match s with
  | EmptyString => if after_digit then Some (acc, count) else None
  | String c s' =>
      if is_digit c then digits s' (10 * acc + digit_value c) (S count) true
      else if Ascii.eqb c "_" then
        if after_digit then digits s' acc count false else None
      else None
  end.

(** [sys.int_max_str_digits]. *)
Definition int_max_str_digits : nat := 4300.

(** [int(s)] in base ten. *)
Definition int (s : string) : result Z :=
  let '(neg, body) :=
    match strip s with
    | String "-" r => (true, r)
    | String "+" r => (false, r)
    | r => (false, r)
    end in
  match digits body 0 0 false with
  | Some (n, count) =>
      if (int_max_str_digits <? count)%nat then Raise ValueError
      else Ok (if neg then - n else n)
  | None => Raise ValueError
  end.

(** [s[1:]]. *)
Definition drop_first (s : string) : string :=
  match s with
  | String _ s' => s'
  | EmptyString => EmptyString
  end.

(** [l[i]] with Python's negative indices. *)
Definition getitem {A : Type} (l : list A) (i : Z) : result A :=
  let n := Z.of_nat (length l) in
  let j := if i <? 0 then i + n else i in
  if (j <? 0) || (n <=? j) then Raise IndexError
  else match l !! Z.to_nat j with
       | Some x => Ok x
       | None => Raise IndexError
       end.

(** [s * n]. *)
Fixpoint repeat_str (s : string) (n : nat) : string :=
  match n with
  | O => EmptyString
  | S n' => s +:+ repeat_str s n'
  end.

Definition str_mul (s : string) (n : Z) : string := repeat_str s (Z.to_nat n).

(** [sep.join(parts)]. *)
Definition join (sep : string) (parts : list string) : string :=
  String.concat sep parts.

(** [[str(i) for i in range(n)]]. *)
Definition range_strs (n : nat) : list string :=
  (fun i => str (Z.of_nat i)) <$> seq 0 n.

(** *** [template.format] with keyword arguments

    Literal text is copied, [{{] and [}}] give one brace, [{name}] is
    replaced by the keyword argument [name]. No positional argument is
    ever passed, so an empty or numeric field raises IndexError. A field
    that carries an attribute, an index, a conversion or a format
    specification is not modelled and is reported as
    [FormatSpecNotModelled]. *)

Inductive scan : Type :=
| Text
| AfterOpen
| AfterClose
| Field (name : string).

Definition unmodelled_field_char (c : ascii) : bool :=
  Ascii.eqb c "." || Ascii.eqb c "[" || Ascii.eqb c "!" || Ascii.eqb c ":".

Definition all_digits (s : string) : bool :=
  forallb is_digit (list_ascii_of_string s).

(** The value of a numeric field name. *)
Definition index_of_digits (s : string) : Z :=
  fold_left (fun acc c => 10 * acc + digit_value c) (list_ascii_of_string s) 0.

(** [sys.maxsize]. *)
Definition maxsize : Z := 2 ^ 63 - 1.

(** A numeric name is a position among the positional arguments, of
    which there are none; one that does not fit [sys.maxsize] is refused
    as a format error. *)
Definition field_value (kwargs : gmap string string) (name : string)
  : result string :=
  if all_digits name then
    if maxsize <? index_of_digits name then Raise ValueError else Raise IndexError
  else match kwargs !! name with
       | Some v => Ok v
       | None => Raise (KeyError name)
       end.

Fixpoint format_from (kwargs : gmap string string) (st : scan) (s : string)
  : result string :=
  match s with
  | EmptyString =>
      match st with
      | Text => Ok EmptyString
      | _ => Raise ValueError
      end
  | String c s' =>
      match st with
      | Text =>
          if Ascii.eqb c "{" then format_from kwargs AfterOpen s'
          else if Ascii.eqb c "}" then format_from kwargs AfterClose s'
          else let! r := format_from kwargs Text s' in Ok (String c r)
      | AfterOpen =>
          if Ascii.eqb c "{" then
            let! r := format_from kwargs Text s' in Ok (String c r)
          else if Ascii.eqb c "}" then Raise IndexError
          else if unmodelled_field_char c then Raise FormatSpecNotModelled
          else format_from kwargs (Field (String c EmptyString)) s'
      | AfterClose =>
          if Ascii.eqb c "}" then
            let! r := format_from kwargs Text s' in Ok (String c r)
          else Raise ValueError
      | Field name =>
          if Ascii.eqb c "}" then
            let! v := field_value kwargs name in
            let! r := format_from kwargs Text s' in Ok (v +:+ r)
          else if Ascii.eqb c "{" then Raise ValueError
          else if unmodelled_field_char c then Raise FormatSpecNotModelled
          else format_from kwargs (Field (name +:+ String c EmptyString)) s'
      end
  end.

Definition format (template : string) (kwargs : gmap string string)
  : result string :=
  format_from kwargs Text template.

End Py.

(** ** XGBoostLanguageConverter *)

Module Converter.

(** The language configuration ([<language>_config.json]), with the keys
    the converter reads: [data_types.fixed_point.precision_multiplier]
    (as the float operand of the multiplication), [indentation.type],
    [indentation.size] and [file_extension]. *)
Record Config : Type := {
  precision_multiplier : float64;
  indentation_type : string;
  indentation_size : Z;
  file_extension : string
}.

Record XGBoostLanguageConverter : Type := {
  language : string;
  config : Config;
  templates : gmap string string
}.

(** One node of a tree dump after [json.loads]: a dictionary in which
    each of [leaf], [split], [split_condition] and [children] is present
    or not. *)
#[local] Unset Elimination Schemes.
Inductive tree_structure : Type :=
| Dict (leaf : option float64) (split : option string)
       (split_condition : option float64)
       (children : option (list tree_structure)).
#[local] Set Elimination Schemes.

(** [d[key]] on a key that may be missing. *)
Definition item {A : Type} (key : string) (v : option A) : result A :=
  match v with
  | Some a => Ok a
  | None => Raise (KeyError key)
  end.

Section Methods.

Variable self : XGBoostLanguageConverter.

(** The f-string of the ZoKrates branch, which
    [convert_number_to_fixed_point] and
    [convert_number_to_fixed_point_from_scaled] share. *)
Definition sign_magnitude_literal (scaled_value : Z) : string :=
  let is_positive := 0 <=? scaled_value in
  let abs_value := Z.abs scaled_value in
  "i64{sgn:" +:+ (if is_positive then "true" else "false")
    +:+ ", v: " +:+ str abs_value +:+ "}".

Definition convert_number_to_fixed_point (value : float64) : result string :=
  let multiplier := precision_multiplier (config self) in
  let! converted_value := int_round_mul value multiplier in
  if String.eqb (language self) "zokrates" then
    Ok (sign_magnitude_literal converted_value)
  else if String.eqb (language self) "rust" then
    Ok ("from_scaled_i64(" +:+ str converted_value +:+ ")")
  else Raise NotImplementedError.

Definition convert_number_to_fixed_point_from_scaled (scaled_value : Z)
  : result string :=
  if String.eqb (language self) "zokrates" then
    Ok (sign_magnitude_literal scaled_value)
  else if String.eqb (language self) "rust" then
    Ok ("from_scaled_i64(" +:+ str scaled_value +:+ ")")
  else Raise NotImplementedError.

Definition convert_number_to_field (value : float64) : result string :=
  let! converted_value := int_round_mul value ten_pow_10 in
  let is_positive := 0 <=? converted_value in
  let abs_value := Z.abs converted_value in
  if String.eqb (language self) "zokrates" then
    Ok ((if is_positive then "1" else "0") +:+ dq +:+ ", " +:+ dq
          +:+ str abs_value)
  else if String.eqb (language self) "rust" then
    Ok (str converted_value)
  else Raise NotImplementedError.

Definition convert_number_to_input (value : float64) : result string :=
  let! converted_value := int_round_mul value ten_pow_10 in
  let is_positive := 0 <=? converted_value in
  let abs_value := Z.abs converted_value in
  if String.eqb (language self) "zokrates" then
    Ok ("{" +:+ dq +:+ "sgn" +:+ dq +:+ ":"
          +:+ (if is_positive then "true" else "false")
          +:+ ", " +:+ dq +:+ "v" +:+ dq +:+ ": " +:+ dq
          +:+ str abs_value +:+ dq +:+ "}")
  else if String.eqb (language self) "rust" then
    Ok (str converted_value)
  else Raise NotImplementedError.

(** The loop that fills [field_parts]. *)
Fixpoint field_parts (test_data : list float64) : result (list string) :=
  match test_data with
  | [] => Ok []
  | value :: rest =>
      let! part := convert_number_to_field value in
      let! parts := field_parts rest in
      Ok (part :: parts)
  end.

Definition convert_test_data_to_field_list (test_data : list float64)
  : result string :=
  let! parts := field_parts test_data in
  if String.eqb (language self) "zokrates" then
    Ok (dq +:+ Py.join (dq +:+ ", " +:+ dq) parts +:+ dq)
  else if String.eqb (language self) "rust" then
    Ok ("vec![" +:+ Py.join ", " parts +:+ "]")
  else Ok (Py.join ", " parts).

Definition indent_of (depth : Z) : string :=
  let indent_char :=
    if String.eqb (indentation_type (config self)) "spaces" then " " else tab in
  Py.str_mul indent_char (indentation_size (config self) * depth).

(** [condition_template.format(feature_index, threshold)]. *)
Definition condition (depth : Z) (feature_index threshold : string) : string :=
  if String.eqb (language self) "rust" then
    if depth =? 1 then
      "let tree_result = if fixed_le(f[" +:+ feature_index +:+ "], "
        +:+ threshold +:+ ") {"
    else
      "if fixed_le(f[" +:+ feature_index +:+ "], " +:+ threshold +:+ ") {"
  else
    if depth =? 1 then
      "x = if i64_le(f[" +:+ feature_index +:+ "], " +:+ threshold +:+ ") {"
    else
      "if i64_le(f[" +:+ feature_index +:+ "], " +:+ threshold +:+ "){".

(** The lines that close a split. *)
Definition closing (depth : Z) : string :=
  let indent := indent_of depth in
  if String.eqb (language self) "rust" then
    if depth =? 1 then indent +:+ "};" +:+ nl
    else indent +:+ "}" +:+ nl
  else
    if depth =? 1 then
      indent +:+ " };" +:+ nl +:+ indent +:+ " y = i64_add(y, x);" +:+ nl
    else indent +:+ " }" +:+ nl.

Fixpoint _generate_tree_logic (tree : tree_structure)
    (feature_indices : list string) (depth : Z) {struct tree} : result string :=
  let indent := indent_of depth in
  match tree with
  | Dict (Some leaf) _ _ _ =>
      let! leaf_value_scaled := int_round_mul leaf ten_pow_10 in
      let! leaf_value :=
        convert_number_to_fixed_point_from_scaled leaf_value_scaled in
      if String.eqb (language self) "rust" then
        Ok (indent +:+ leaf_value +:+ nl)
      else Ok (indent +:+ " " +:+ leaf_value +:+ nl)
  | Dict None split split_condition children =>
      let! split_name := item "split" split in
      let! feature_idx := Py.int (Py.drop_first split_name) in
      let! feature_index := Py.getitem feature_indices feature_idx in
      let! split_value := item "split_condition" split_condition in
      let! threshold_scaled := int_round_mul split_value ten_pow_10 in
      let! threshold :=
        convert_number_to_fixed_point_from_scaled threshold_scaled in
      let head := indent +:+ condition depth feature_index threshold +:+ nl in
      match children with
      | None => Raise (KeyError "children")
      | Some [] => Raise IndexError
      | Some (yes_branch :: others) =>
          let! yes_code :=
            _generate_tree_logic yes_branch feature_indices (depth + 1) in
          match others with
          | [] => Raise IndexError
          | no_branch :: _ =>
              let! no_code :=
                _generate_tree_logic no_branch feature_indices (depth + 1) in
              Ok (head +:+ yes_code +:+ indent +:+ "} else {" +:+ nl
                    +:+ no_code +:+ closing depth)
          end
      end
  end.

Definition feature_names_to_indices (feature_names : list string)
  : list string :=
  Py.range_strs (length feature_names).

(** The loop over [enumerate(trees_dump)]; [trees_dump] holds the parsed
    dumps, [tree_idx] is the index of its head and [tree_codes] the list
    built so far. *)
Fixpoint tree_loop (trees_dump : list tree_structure)
    (feature_indices : list string) (num_trees : Z) (tree_idx : Z)
    (tree_codes : list string) : result (list string) :=
  match trees_dump with
  | [] => Ok tree_codes
  | tree :: rest =>
      if num_trees <=? tree_idx then Ok tree_codes
      else
        let! tree_logic := _generate_tree_logic tree feature_indices 1 in
        match templates self !! "tree" with
        | Some template =>
            let! tree_code :=
              Py.format template
                {[ "tree_idx" := str tree_idx; "tree_logic" := tree_logic ]} in
            tree_loop rest feature_indices num_trees (tree_idx + 1)
              (tree_codes ++ [tree_code])
        | None =>
            tree_loop rest feature_indices num_trees (tree_idx + 1) tree_codes
        end
  end.

(** The three appends to [code_parts], in the order the source makes
    them. *)
Definition header_part : list string :=
  match templates self !! "header" with
  | Some header => [header]
  | None => []
  end.

Definition main_part (feature_names : list string) (tree_codes : list string)
  : result (list string) :=
  match templates self !! "main" with
  | Some template =>
      let! main_code :=
        Py.format template
          {[ "num_features" := str (Z.of_nat (length feature_names));
             "tree_code" := Py.join nl tree_codes ]} in
      Ok [main_code]
  | None => Ok []
  end.

Definition test_part (feature_names : list string) : result (list string) :=
  if String.eqb (language self) "rust" then
    match templates self !! "test" with
    | Some template =>
        let! test_code :=
          Py.format template
            {[ "num_features" := str (Z.of_nat (length feature_names)) ]} in
        Ok [test_code]
    | None => Ok []
    end
  else Ok [].

(** [trees_dump] is [booster.get_dump(dump_format='json')] with
    [json.loads] applied to each entry. *)
Definition convert_xgboost_to_code (trees_dump : list tree_structure)
    (feature_names : list string) (num_trees : Z) : result string :=
  let feature_indices := feature_names_to_indices feature_names in
  let! tree_codes := tree_loop trees_dump feature_indices num_trees 0 [] in
  let! main_code := main_part feature_names tree_codes in
  let! test_code := test_part feature_names in
  Ok (Py.join nl (header_part ++ main_code ++ test_code)).

End Methods.

End Converter.

(** ** The notebook helper of converter/cached_features.py *)

Module CachedFeatures.

Definition num2i64_field (x : Z) : string :=
  let sgn := if 0 <=? x then 1 else 0 in
  str sgn +:+ dq +:+ ", " +:+ dq +:+ str (Z.abs x).

(** The loop over [test_col], [instr] being the text built so far. *)
Fixpoint instr_loop (test_col : list float64) (instr : string) : result string :=
  match test_col with
  | [] => Ok instr
  | i :: rest =>
      let! x := int_round_mul i ten_pow_10 in
      instr_loop rest (instr +:+ num2i64_field x +:+ dq +:+ ", " +:+ dq)
  end.

(** [instr[:-3]]. *)
Definition drop_last_3 (instr : string) : string :=
  substring 0 (String.length instr - 3) instr.

Definition test_col2i64_list_of_field (test_col : list float64) : result string :=
  let! instr := instr_loop test_col dq in
  Ok (drop_last_3 instr).

End CachedFeatures.

(** ** Notions used to state the properties *)

Import Converter.

(** Structural induction over a node and the nodes listed under
    [children]. *)
Section TreeInduction.

Variable P : tree_structure -> Prop.

Definition kids (children : option (list tree_structure)) : list tree_structure :=
  match children with
  | Some l => l
  | None => []
  end.

Hypothesis node_case :
  forall leaf split split_condition children,
    Forall P (kids children) -> P (Dict leaf split split_condition children).

Fixpoint tree_structure_ind (t : tree_structure) : P t :=
  match t with
  | Dict leaf split split_condition children =>
      node_case leaf split split_condition children
        match children as c return Forall P (kids c) with
        | None => List.Forall_nil P
        | Some l =>
            (fix all (l : list tree_structure) : Forall P l :=
               match l with
               | [] => List.Forall_nil P
               | k :: rest => List.Forall_cons P k rest (tree_structure_ind k) (all rest)
               end) l
        end
  end.

End TreeInduction.

(** The two node shapes of a dump. *)
Definition Leaf (value : float64) : tree_structure :=
  Dict (Some value) None None None.

Definition Split (split : string) (split_condition : float64)
    (yes no : tree_structure) : tree_structure :=
  Dict None (Some split) (Some split_condition) (Some [yes; no]).

(** The value can be scaled: its product with [10^10] is a finite float. *)
Definition scalable (value : float64) : bool :=
  is_finite (mul value ten_pow_10).

(** The languages [convert_number_to_fixed_point_from_scaled] accepts. *)
Definition supported (self : XGBoostLanguageConverter) : bool :=
  String.eqb (language self) "zokrates" || String.eqb (language self) "rust".

(** A well-formed tree over [F] features: leaves carry a scalable value,
    splits carry [f<index>] with [0 <= index < F], a scalable threshold
    and two well-formed children. *)
Fixpoint well_formed (F : Z) (t : tree_structure) : bool :=
  match t with
  | Dict (Some value) None None None => scalable value
  | Dict None (Some (String "f" digits)) (Some threshold) (Some [yes; no]) =>
      match Py.int digits with
      | Ok i => (0 <=? i) && (i <? F)
      | Raise _ => false
      end
      && scalable threshold && well_formed F yes && well_formed F no
  | _ => false
  end.

(** [visits t n]: compiling [t] reaches node [n], through first and
    second children of nodes without a [leaf] key. *)
Inductive visits : tree_structure -> tree_structure -> Prop :=
| visits_here t : visits t t
| visits_yes split split_condition yes others n :
    visits yes n ->
    visits (Dict None split split_condition (Some (yes :: others))) n
| visits_no split split_condition yes no others n :
    visits no n ->
    visits (Dict None split split_condition (Some (yes :: no :: others))) n.

(** [rejected F n e]: over [F] features, node [n] has no [leaf] key and
    either has no [split] key either, or its [split] parses to an index
    outside [[-F, F)]; [e] is the exception the lookup raises. *)
Inductive rejected (F : Z) : tree_structure -> exn -> Prop :=
| rejected_no_split split_condition children :
    rejected F (Dict None None split_condition children) (KeyError "split")
| rejected_index split split_condition children i :
    Py.int (Py.drop_first split) = Ok i ->
    i < - F \/ F <= i ->
    rejected F (Dict None (Some split) split_condition children) IndexError.

(** The sign bit of a float that is not NaN. *)
Definition has_sign (s : bool) (x : float64) : Prop :=
  match x with
  | S754_zero s' | S754_infinity s' | S754_finite s' _ _ => s' = s
  | S754_nan => False
  end.

(** The same converter with another [precision_multiplier]. *)
Definition with_multiplier (self : XGBoostLanguageConverter) (m : float64)
  : XGBoostLanguageConverter :=
  {| language := language self;
     config :=
       {| precision_multiplier := m;
          indentation_type := indentation_type (config self);
          indentation_size := indentation_size (config self);
          file_extension := file_extension (config self) |};
     templates := templates self |}.

(** Results of a list of calls, the first exception winning. *)
Fixpoint collect {A : Type} (rs : list (result A)) : result (list A) :=
  match rs with
  | [] => Ok []
  | r :: rs' =>
      let! a := r in
      let! l := collect rs' in
      Ok (a :: l)
  end.

(** The block of the tree at position [i]: its logic at depth 1 put
    through the [tree] template with [tree_idx = i]. *)
Definition tree_block (self : XGBoostLanguageConverter) (template : string)
    (feature_indices : list string) (i : nat) (tree : tree_structure)
  : result string :=
  let! tree_logic := _generate_tree_logic self tree feature_indices 1 in
  Py.format template
    {[ "tree_idx" := str (Z.of_nat i); "tree_logic" := tree_logic ]}.

(** Modelled from the spec: [descale], the division of a scaled integer
    by the scale factor [10^10], as an exact rational; the source has no
    such function. *)
Definition descale (scaled : Z) : Q := (inject_Z scaled / inject_Z (10 ^ 10))%Q.

(** A quoted list of tokens: each token between double quotes, the
    quoted tokens separated by a comma and a space. *)
Definition quoted_tokens (tokens : list string) : string :=
  Py.join ", " ((fun t => dq +:+ t +:+ dq) <$> tokens).

(** *** Sample inputs *)

Module Sample.

(** [1.5], [-2.0], [0.25], [0.1], [-0.2], [-2^-40] and [99999999.9] as
    binary64 values. *)
Definition f_1_5 : float64 := S754_finite false 6755399441055744 (-52).
Definition f_neg_2 : float64 := S754_finite true 4503599627370496 (-51).
Definition f_0_25 : float64 := S754_finite false 4503599627370496 (-54).
Definition f_0_1 : float64 := S754_finite false 7205759403792794 (-56).
Definition f_neg_0_2 : float64 := S754_finite true 7205759403792794 (-55).
Definition f_neg_tiny : float64 := S754_finite true 4503599627370496 (-92).
Definition f_99999999_9 : float64 := S754_finite false 6710886393289114 (-26).

Definition spaces_4 (multiplier : float64) : Config :=
  {| precision_multiplier := multiplier;
     indentation_type := "spaces";
     indentation_size := 4;
     file_extension := ".zok" |}.

Definition zokrates : XGBoostLanguageConverter :=
  {| language := "zokrates";
     config := spaces_4 ten_pow_10;
     templates :=
       {[ "header" := "// helpers";
          "tree" := "// tree {tree_idx}" +:+ nl +:+ "{tree_logic}";
          "main" := "def main(i64[{num_features}] f) {{" +:+ nl
                      +:+ "{tree_code}" +:+ nl +:+ "}}" ]} |}.

Definition rust : XGBoostLanguageConverter :=
  {| language := "rust";
     config := spaces_4 ten_pow_10;
     templates := ∅ |}.

(** A template set with the [main] role only. *)
Definition main_only : XGBoostLanguageConverter :=
  {| language := "rust";
     config := spaces_4 ten_pow_10;
     templates := {[ "main" := "fn predict() {{" +:+ nl +:+ "{tree_code}}}" ]} |}.

Definition stump : tree_structure :=
  Split "f0" f_1_5 (Leaf f_0_1) (Leaf f_neg_0_2).

End Sample.

(** ** Python string and path functions of the file handling *)

Module PyStr.

(** [new] after every character: the part of [s.replace("", new)] that
    follows the leading [new]. *)
Fixpoint interleave (new s : string) : string :=
  match s with
  | EmptyString => EmptyString
  | String c s' => String c (new +:+ interleave new s')
  end.

(** The scan of [s.replace(old, new)] for a non-empty [old]: occurrences
    are taken from the left and do not overlap; [skip] counts the
    characters of the occurrence just replaced that are still to pass. *)
Fixpoint replace_from (old new s : string) (skip : nat) : string :=
  match s with
  | EmptyString => EmptyString
  | String c s' =>
      match skip with
      | S k => replace_from old new s' k
      | O =>
          if String.prefix old s
          then new +:+ replace_from old new s' (String.length old - 1)
          else String c (replace_from old new s' 0)
      end
  end.

(** [s.replace(old, new)]. *)
Definition replace (s old new : string) : string :=
  match old with
  | EmptyString => new +:+ interleave new s
  | _ => replace_from old new s 0
  end.

(** [s.endswith(suffix)]: [suffix] is [s] or the end of [s]. *)
Fixpoint endswith (s suffix : string) : bool :=
  String.eqb s suffix
  || match s with
     | String _ s' => endswith s' suffix
     | EmptyString => false
     end.

(** [os.path.join(a, b)] on a POSIX system. *)
Definition path_join (a b : string) : string :=
  if String.prefix "/" b then b
  else if String.eqb a EmptyString || endswith a "/" then a +:+ b
  else a +:+ "/" +:+ b.

Definition has_sep (s : string) : bool :=
  existsb (Ascii.eqb "/") (list_ascii_of_string s).

(** [p[:p.rfind('/') + 1]]. *)
Fixpoint head_of (p : string) : string :=
  match p with
  | EmptyString => EmptyString
  | String c p' =>
      if has_sep p' then String c (head_of p')
      else if Ascii.eqb c "/" then String c EmptyString
      else EmptyString
  end.

(** [head.rstrip('/')]. *)
Fixpoint rstrip_sep (head : string) : string :=
  match head with
  | EmptyString => EmptyString
  | String c head' =>
      match rstrip_sep head' with
      | EmptyString => if Ascii.eqb c "/" then EmptyString else String c EmptyString
      | r => String c r
      end
  end.

(** [os.path.dirname(p)] on a POSIX system: the head up to the last
    slash, without its trailing slashes unless it consists of slashes. *)
Definition dirname (p : string) : string :=
  let head := head_of p in
  match rstrip_sep head with
  | EmptyString => head
  | stripped => stripped
  end.

End PyStr.

(** ** The file handling of the converter

    Reading is modelled by a function from a path to the text of the file
    at that path, [None] when [os.path.exists] is false; writing by the
    list of (path, text) pairs written, in order. Errors of the file
    system on a path that exists are not modelled. *)

Module Files.

Definition template_files (language : string) : list string :=
  [language +:+ "_header.template";
   language +:+ "_main.template";
   language +:+ "_tree.template"]
  ++ (if String.eqb language "rust"
      then [language +:+ "_cargo.template"; language +:+ "_test.template"]
      else []).

(** [template_file.replace(f"{language}_", "").replace(".template", "")]. *)
Definition template_name (language template_file : string) : string :=
  PyStr.replace
    (PyStr.replace template_file (language +:+ "_") EmptyString)
    ".template" EmptyString.

(** The loop over [template_files], [templates] being the dictionary
    built so far. *)
Fixpoint load_loop (language template_dir : string)
    (read_file : string -> option string) (files : list string)
    (templates : gmap string string) : gmap string string :=
  match files with
  | [] => templates
  | template_file :: rest =>
      match read_file (PyStr.path_join template_dir template_file) with
      | Some text =>
          load_loop language template_dir read_file rest
            (<[template_name language template_file := text]> templates)
      | None => load_loop language template_dir read_file rest templates
      end
  end.

Definition _load_templates (language template_dir : string)
    (read_file : string -> option string) : gmap string string :=
  load_loop language template_dir read_file (template_files language) ∅.

(** The name [save_code_to_file] writes the code to. *)
Definition code_path (self : XGBoostLanguageConverter) (filename : string)
  : string :=
  let extension := file_extension (config self) in
  if PyStr.endswith filename extension then filename
  else filename +:+ extension.

(** [save_code_to_file]: the files written, in order. *)
Definition save_code_to_file (self : XGBoostLanguageConverter)
    (code filename : string) : list (string * string) :=
  let filename := code_path self filename in
  [(filename, code)]
  ++ (if String.eqb (language self) "rust" then
        match templates self !! "cargo" with
        | Some cargo =>
            let directory :=
              match PyStr.dirname filename with
              | EmptyString => "."
              | d => d
              end in
            [(PyStr.path_join directory "Cargo.toml", cargo)]
        | None => []
        end
      else []).

End Files.

(** ** The cache of feature names (converter/cached_features.py)

    The five functions that read the processed data are parameters: each
    stands for the outcome of its call, a pair of feature names and
    field list, or the exception the call ends in.  The cache file is
    modelled by the dictionary it stores, [None] when the file does not
    exist. *)

Module Cache.

(** One value of the cache: [{'feature_names': ..., 'instr': ...}], each
    being [None] when the model number is out of scope. *)
Record entry : Type := {
  feature_names : option (list string);
  instr : option string
}.

Section Loaders.

Variable get_feature_names_instr_1 : result (list string * string).
Variable get_feature_names_instr_2 : result (list string * string).
Variable get_feature_names_instr_3 : result (list string * string).
Variable get_feature_names_instr_4 : bool -> result (list string * string).
Variable get_feature_names_instr_5 : bool -> result (list string * string).

Definition found (r : list string * string) : entry :=
  {| feature_names := Some (fst r); instr := Some (snd r) |}.

Definition get_feature_names_instr (i : Z) (use_xtra_features : bool)
  : result entry :=
  if i =? 1 then let! r := get_feature_names_instr_1 in Ok (found r)
  else if i =? 2 then let! r := get_feature_names_instr_2 in Ok (found r)
  else if i =? 3 then let! r := get_feature_names_instr_3 in Ok (found r)
  else if i =? 4 then
    let! r := get_feature_names_instr_4 use_xtra_features in Ok (found r)
  else if i =? 5 then
    let! r := get_feature_names_instr_5 use_xtra_features in Ok (found r)
  else Ok {| feature_names := None; instr := None |}.

(** The first loop of [save_feature_names_cache]. *)
Fixpoint plain_models (model_nums : list Z) (cache : gmap string entry)
  : result (gmap string entry) :=
  match model_nums with
  | [] => Ok cache
  | model_num :: rest =>
      let! e := get_feature_names_instr model_num false in
      plain_models rest (<["model_" +:+ str model_num := e]> cache)
  end.

(** The second loop. *)
Fixpoint xtra_models (model_nums : list Z) (cache : gmap string entry)
  : result (gmap string entry) :=
  match model_nums with
  | [] => Ok cache
  | model_num :: rest =>
      let! with_xtra := get_feature_names_instr model_num true in
      let cache :=
        <["model_" +:+ str model_num +:+ "_with_xtra" := with_xtra]> cache in
      let! no_xtra := get_feature_names_instr model_num false in
      let cache :=
        <["model_" +:+ str model_num +:+ "_no_xtra" := no_xtra]> cache in
      xtra_models rest cache
  end.

(** [save_feature_names_cache]: the dictionary written to the file and
    returned; the loops run over [range(1, 4)] and [range(4, 6)]. *)
Definition save_feature_names_cache : result (gmap string entry) :=
  let! cache := plain_models [1; 2; 3] ∅ in
  xtra_models [4; 5] cache.

Definition cache_key (model_num : Z) (use_xtra_features : bool) : string :=
  if (model_num =? 4) || (model_num =? 5) then
    "model_" +:+ str model_num +:+ "_"
      +:+ (if use_xtra_features then "with_xtra" else "no_xtra")
  else "model_" +:+ str model_num.

(** The dictionary read from the cache file, after the check that
    creates the file when it is missing. *)
Definition read_cache (cache_file : option (gmap string entry))
  : result (gmap string entry) :=
  match cache_file with
  | Some cache => Ok cache
  | None => save_feature_names_cache
  end.

(** [cache[key]], common to the three loaders. *)
Definition load_entry (model_num : Z) (use_xtra_features : bool)
    (cache_file : option (gmap string entry)) : result entry :=
  let! cache := read_cache cache_file in
  let key := cache_key model_num use_xtra_features in
  match cache !! key with
  | Some e => Ok e
  | None => Raise (KeyError key)
  end.

Definition load_feature_names_from_cache (model_num : Z)
    (use_xtra_features : bool) (cache_file : option (gmap string entry))
  : result (option (list string)) :=
  let! e := load_entry model_num use_xtra_features cache_file in
  Ok (feature_names e).

Definition load_instr_from_cache (model_num : Z)
    (use_xtra_features : bool) (cache_file : option (gmap string entry))
  : result (option string) :=
  let! e := load_entry model_num use_xtra_features cache_file in
  Ok (instr e).

Definition load_feature_names_and_instr_from_cache (model_num : Z)
    (use_xtra_features : bool) (cache_file : option (gmap string entry))
  : result (option (list string) * option string) :=
  let! e := load_entry model_num use_xtra_features cache_file in
  Ok (feature_names e, instr e).

End Loaders.

End Cache.

(** ** Further notions used to state properties *)

(** Opening braces minus closing braces. *)
Fixpoint brace_balance (s : string) : Z :=
  match s with
  | EmptyString => 0
  | String c s' =>
      (if Ascii.eqb c "{" then 1 else if Ascii.eqb c "}" then -1 else 0)
      + brace_balance s'
  end.

(** The sign token and the magnitude token of a scaled value. *)
Definition field_tokens (scaled : Z) : list string :=
  [if 0 <=? scaled then "1" else "0"; str (Z.abs scaled)].

(** The scaled values of a vector, the first exception winning. *)
Definition scaled_values (values : list float64) : result (list Z) :=
  collect ((fun v => int_round_mul v ten_pow_10) <$> values).

(** *** Further sample inputs *)

Module MoreSamples.

(** A converter for a language the number converters do not know. *)
Definition solidity : XGBoostLanguageConverter :=
  {| language := "solidity";
     config := Sample.spaces_4 ten_pow_10;
     templates := {[ "main" := "contract Model {{ {tree_code} }}" ]} |}.

(** A Rust converter with a [main] template and a build manifest. *)
Definition rust_with_cargo : XGBoostLanguageConverter :=
  {| language := "rust";
     config :=
       {| precision_multiplier := ten_pow_10;
          indentation_type := "spaces";
          indentation_size := 4;
          file_extension := ".rs" |};
     templates :=
       {[ "main" := "fn predict() {{" +:+ nl +:+ "{tree_code}}}";
          "cargo" := "[package]" ]} |}.

(** A node with neither a [leaf] nor a [split] key. *)
Definition empty_node : tree_structure := Dict None None None None.

End MoreSamples.

(** * Properties *)

(** ** Results and strings *)

Lemma bind_Ok {A B : Type} (r : result A) (k : A -> result B) (b : B) :
  bind r k = Ok b <-> exists a, r = Ok a /\ k a = Ok b.
Proof.
  destruct r as [a|e]; simpl; split.
  - intros H; exists a; auto.
  - intros (a' & [= ->] & H); exact H.
  - discriminate.
  - intros (a' & [=] & _).
Qed.

Lemma append_assoc (s1 s2 s3 : string) :
  (s1 +:+ s2) +:+ s3 = s1 +:+ s2 +:+ s3.
Proof.
  induction s1 as [|c s1 IH]; [reflexivity|].
  change (String c ((s1 +:+ s2) +:+ s3) = String c (s1 +:+ s2 +:+ s3)).
  now rewrite IH.
Qed.

Lemma collect_Ok {A : Type} (rs : list (result A)) (l : list A) :
  collect rs = Ok l ->
  length l = length rs
  /\ forall i r, rs !! i = Some r -> exists a, r = Ok a /\ l !! i = Some a.
Proof.
  revert l. induction rs as [|r rs IH]; intros l; cbn [collect].
  - intros [= <-]. split; [reflexivity|]. intros i r Hr. discriminate.
  - destruct r as [a|e]; cbn [bind]; [|discriminate].
    destruct (collect rs) as [l'|e]; cbn [bind]; [|discriminate].
    intros [= <-]. destruct (IH l' eq_refl) as [Hlen Hall].
    split; [cbn; now rewrite Hlen|].
    intros [|i] r Hr; cbn in Hr |- *.
    + injection Hr as <-. eauto.
    + apply Hall, Hr.
Qed.

(** ** Python list indexing *)

Lemma getitem_nonneg {A : Type} (l : list A) (i : Z) :
  0 <= i < Z.of_nat (length l) ->
  exists x, Py.getitem l i = Ok x /\ l !! Z.to_nat i = Some x.
Proof.
  intros Hi. unfold Py.getitem.
  destruct (Z.ltb_spec i 0) as [?|_]; [lia|].
  destruct (Z.ltb_spec i 0) as [?|_]; [lia|].
  destruct (Z.leb_spec (Z.of_nat (length l)) i) as [?|_]; [lia|].
  cbn [orb].
  destruct (lookup_lt_is_Some_2 l (Z.to_nat i)) as [x Hx]; [lia|].
  rewrite Hx. eauto.
Qed.

Lemma getitem_out_of_range {A : Type} (l : list A) (i : Z) :
  i < - Z.of_nat (length l) \/ Z.of_nat (length l) <= i ->
  Py.getitem l i = Raise IndexError.
Proof.
  intros Hi. unfold Py.getitem.
  destruct (Z.ltb_spec i 0) as [?|?].
  - destruct (Z.ltb_spec (i + Z.of_nat (length l)) 0) as [_|?]; [reflexivity|lia].
  - destruct (Z.ltb_spec i 0) as [?|_]; [lia|].
    destruct (Z.leb_spec (Z.of_nat (length l)) i) as [_|?]; [reflexivity|lia].
Qed.

Lemma range_strs_lookup (n : nat) (j : Z) :
  0 <= j < Z.of_nat n -> Py.range_strs n !! Z.to_nat j = Some (str j).
Proof.
  intros Hj. unfold Py.range_strs.
  rewrite list_lookup_fmap, lookup_seq_lt by lia.
  cbn. now rewrite Z2Nat.id by lia.
Qed.

Lemma length_range_strs (n : nat) : length (Py.range_strs n) = n.
Proof. unfold Py.range_strs. now rewrite length_fmap, length_seq. Qed.

Lemma getitem_range_strs_negative (n : nat) (i : Z) :
  - Z.of_nat n <= i <= -1 ->
  Py.getitem (Py.range_strs n) i = Ok (str (Z.of_nat n + i)).
Proof.
  intros Hi. unfold Py.getitem. rewrite length_range_strs.
  destruct (Z.ltb_spec i 0) as [_|?]; [|lia].
  destruct (Z.ltb_spec (i + Z.of_nat n) 0) as [?|_]; [lia|].
  destruct (Z.leb_spec (Z.of_nat n) (i + Z.of_nat n)) as [?|_]; [lia|].
  cbn [orb]. rewrite range_strs_lookup by lia.
  now rewrite Z.add_comm.
Qed.

(** ** The sample floats are the binary64 values they are named after *)

Example sample_floats_valid :
  Forall (fun x => valid_binary prec emax x = true)
    [Sample.f_1_5; Sample.f_neg_2; Sample.f_0_25; Sample.f_0_1;
     Sample.f_neg_0_2; Sample.f_neg_tiny; Sample.f_99999999_9; ten_pow_10].
Proof. repeat constructor. Qed.

Example sample_floats_values :
  (to_Q Sample.f_1_5 == 3 # 2 /\ to_Q Sample.f_neg_2 == - (2)
   /\ to_Q Sample.f_0_25 == 1 # 4 /\ to_Q ten_pow_10 == inject_Z (10 ^ 10)
   /\ to_Q Sample.f_neg_tiny == - (1 # 2 ^ 40))%Q.
Proof. repeat split. Qed.

(** ** Field encoding of a test vector *)

Section FieldEncoding.

Variable self : XGBoostLanguageConverter.

Hypothesis sign_magnitude_dialect : language self = "zokrates".

(** C7. For the sign/magnitude dialect, [convert_test_data_to_field_list]
    on the vector [[1.5, -2.0]] returns one text made of four quoted tokens
    separated by a comma and a space: ["1"] (positive) and ["15000000000"],
    then ["0"] (negative) and ["20000000000"]. The two entries of
    [field_parts] are the sign token and the magnitude token of each value,
    and the notebook helper [test_col2i64_list_of_field] returns the same
    text. *)
Theorem field_list_of_1_5_and_neg_2 :
  int_round_mul Sample.f_1_5 ten_pow_10 = Ok 15000000000
  /\ int_round_mul Sample.f_neg_2 ten_pow_10 = Ok (-20000000000)
  /\ field_parts self [Sample.f_1_5; Sample.f_neg_2]
  = Ok ["1" +:+ dq +:+ ", " +:+ dq +:+ "15000000000";
        "0" +:+ dq +:+ ", " +:+ dq +:+ "20000000000"]
  /\ convert_test_data_to_field_list self [Sample.f_1_5; Sample.f_neg_2]
     = Ok (quoted_tokens ["1"; "15000000000"; "0"; "20000000000"])
  /\ CachedFeatures.test_col2i64_list_of_field [Sample.f_1_5; Sample.f_neg_2]
     = Ok (quoted_tokens ["1"; "15000000000"; "0"; "20000000000"]).
Proof.
  unfold convert_test_data_to_field_list, field_parts, convert_number_to_field.
  rewrite sign_magnitude_dialect.
  repeat split; vm_compute; reflexivity.
Qed.

End FieldEncoding.

Lemma field_list_of_1_5_and_neg_2_witness :
  language Sample.zokrates = "zokrates"
  /\ convert_test_data_to_field_list Sample.zokrates [Sample.f_1_5; Sample.f_neg_2]
     = Ok (quoted_tokens ["1"; "15000000000"; "0"; "20000000000"]).
Proof.
  split; [reflexivity|].
  apply (field_list_of_1_5_and_neg_2 Sample.zokrates eq_refl).
Defined.

(** ** Feature names *)

(** C9. Two feature-name lists of the same length give the same result
    of [convert_xgboost_to_code], for every converter (language,
    configuration, template set), dump and tree cap: the names enter the
    output through their number only. *)
Theorem names_only_through_length
    (self : XGBoostLanguageConverter) (trees_dump : list tree_structure)
    (names1 names2 : list string) (num_trees : Z) :
  length names1 = length names2 ->
  convert_xgboost_to_code self trees_dump names1 num_trees
  = convert_xgboost_to_code self trees_dump names2 num_trees.
Proof.
  intros Hlen.
  unfold convert_xgboost_to_code, feature_names_to_indices, main_part, test_part.
  rewrite Hlen; reflexivity.
Qed.

Lemma names_only_through_length_witness :
  convert_xgboost_to_code Sample.zokrates [Sample.stump] ["rain"; "wind"] 1
  = convert_xgboost_to_code Sample.zokrates [Sample.stump] ["f0"; "0"] 1.
Proof. apply names_only_through_length; reflexivity. Defined.

(** ** The scale factor of the tree compiler *)

(** C5 as stated fails: two converters that differ in their configured
    [precision_multiplier] only (10^10 and 100) emit the same text for the
    leaf [0.25], and that text is not the literal the configured
    multiplier 100 gives. *)
Lemma configured_multiplier_counterexample :
  precision_multiplier (config Sample.zokrates)
  <> precision_multiplier (config (with_multiplier Sample.zokrates (of_int 100)))
  /\ _generate_tree_logic (with_multiplier Sample.zokrates (of_int 100))
       (Leaf Sample.f_0_25) ["0"] 1
     = _generate_tree_logic Sample.zokrates (Leaf Sample.f_0_25) ["0"] 1
  /\ _generate_tree_logic (with_multiplier Sample.zokrates (of_int 100))
       (Leaf Sample.f_0_25) ["0"] 1
     = Ok ("     i64{sgn:true, v: 2500000000}" +:+ nl)
  /\ convert_number_to_fixed_point
       (with_multiplier Sample.zokrates (of_int 100)) Sample.f_0_25
     = Ok "i64{sgn:true, v: 25}".
Proof.
  split; [vm_compute; discriminate|]. repeat split.
Qed.

(** C5, amended. The tree compiler scales leaf values and split
    thresholds by the constant 10^10, not by the configured
    [precision_multiplier]: for every tree its output is the same whatever
    the configured multiplier is; a leaf is rendered from
    [int(np.round(leaf * 10000000000, 0))]; a split is rendered from
    [int(np.round(split_condition * 10000000000, 0))], the literal of that
    integer being the threshold of its condition; and a node without a
    [leaf] key that compiles is such a split, with a name, a threshold
    and at least two children. *)
Theorem tree_logic_scales_by_constant
    (self : XGBoostLanguageConverter) (multiplier : float64)
    (feature_indices : list string) (depth : Z)
    (value : float64) (split : option string)
    (split_condition : option float64)
    (children : option (list tree_structure))
    (name : string) (threshold_value : float64)
    (yes no : tree_structure) (others : list tree_structure) :
  (forall tree,
     _generate_tree_logic (with_multiplier self multiplier) tree
       feature_indices depth
     = _generate_tree_logic self tree feature_indices depth)
  /\ _generate_tree_logic self (Dict (Some value) split split_condition children)
       feature_indices depth
     = (let! scaled := int_round_mul value ten_pow_10 in
        let! literal := convert_number_to_fixed_point_from_scaled self scaled in
        Ok (indent_of self depth
              +:+ (if String.eqb (language self) "rust" then literal
                   else " " +:+ literal)
              +:+ nl))
  /\ _generate_tree_logic self
       (Dict None (Some name) (Some threshold_value)
          (Some (yes :: no :: others)))
       feature_indices depth
     = (let! feature_idx := Py.int (Py.drop_first name) in
        let! feature_index := Py.getitem feature_indices feature_idx in
        let! scaled := int_round_mul threshold_value ten_pow_10 in
        let! literal := convert_number_to_fixed_point_from_scaled self scaled in
        let! yes_code :=
          _generate_tree_logic self yes feature_indices (depth + 1) in
        let! no_code :=
          _generate_tree_logic self no feature_indices (depth + 1) in
        Ok (indent_of self depth
              +:+ condition self depth feature_index literal +:+ nl
              +:+ yes_code
              +:+ indent_of self depth +:+ "} else {" +:+ nl
              +:+ no_code
              +:+ closing self depth))
  /\ (forall node_split node_condition node_children code,
        _generate_tree_logic self
          (Dict None node_split node_condition node_children)
          feature_indices depth = Ok code ->
        exists split_name split_value first second rest,
          node_split = Some split_name
          /\ node_condition = Some split_value
          /\ node_children = Some (first :: second :: rest)).
Proof.
  split; [reflexivity|]. split; [|split].
  - cbn [_generate_tree_logic].
    destruct (int_round_mul value ten_pow_10) as [scaled|e];
      cbn [bind]; [|reflexivity].
    destruct (convert_number_to_fixed_point_from_scaled self scaled);
      cbn [bind]; [|reflexivity].
    destruct (String.eqb (language self) "rust"); reflexivity.
  - cbn [_generate_tree_logic item bind].
    destruct (Py.int (Py.drop_first name)); cbn [bind]; [|reflexivity].
    destruct (Py.getitem feature_indices _); cbn [bind]; [|reflexivity].
    destruct (int_round_mul threshold_value ten_pow_10) as [scaled|e];
      cbn [bind]; [|reflexivity].
    destruct (convert_number_to_fixed_point_from_scaled self scaled);
      cbn [bind]; [|reflexivity].
    destruct (_generate_tree_logic self yes feature_indices (depth + 1));
      cbn [bind]; [|reflexivity].
    destruct (_generate_tree_logic self no feature_indices (depth + 1));
      cbn [bind]; [|reflexivity].
    now rewrite !append_assoc.
  - intros node_split node_condition node_children code.
    cbn [_generate_tree_logic].
    destruct node_split as [split_name|]; [|discriminate]. cbn [item bind].
    destruct (Py.int (Py.drop_first split_name)); [|discriminate]. cbn [bind].
    destruct (Py.getitem feature_indices _); [|discriminate]. cbn [bind].
    destruct node_condition as [split_value|]; [|discriminate].
    cbn [item bind].
    destruct (int_round_mul split_value ten_pow_10) as [scaled|e];
      [|discriminate].
    cbn [bind].
    destruct (convert_number_to_fixed_point_from_scaled self scaled);
      [|discriminate].
    cbn [bind].
    destruct node_children as [[|first [|second rest]]|]; try discriminate.
    + destruct (_generate_tree_logic self first feature_indices (depth + 1));
        discriminate.
    + intros _. exists split_name, split_value, first, second, rest. auto.
Qed.

(** The stump [f0 <= 1.5 ? 0.1 : -0.2] under a configured multiplier of
    100: threshold and leaves stand in the code scaled by 10^10. *)
Example stump_scaled_by_constant :
  _generate_tree_logic (with_multiplier Sample.zokrates (of_int 100))
    Sample.stump ["0"] 1
  = Ok ("    x = if i64_le(f[0], i64{sgn:true, v: 15000000000}) {" +:+ nl
          +:+ "         i64{sgn:true, v: 1000000000}" +:+ nl
          +:+ "    } else {" +:+ nl
          +:+ "         i64{sgn:false, v: 2000000000}" +:+ nl
          +:+ "     };" +:+ nl
          +:+ "     y = i64_add(y, x);" +:+ nl).
Proof. reflexivity. Qed.

(** ** Well-formed trees compile *)

Lemma scalable_int_round_mul (value : float64) :
  scalable value = true -> exists z, int_round_mul value ten_pow_10 = Ok z.
Proof.
  unfold scalable, int_round_mul.
  destruct (mul value ten_pow_10) as [s|s| |s m e]; try discriminate; intros _.
  - exists 0; reflexivity.
  - destruct e as [|p|k]; cbn [np_round to_int]; eauto.
    destruct (round_half_even (Z.pos m) k); cbn [to_int]; eauto.
Qed.

Lemma from_scaled_supported (self : XGBoostLanguageConverter) (z : Z) :
  supported self = true ->
  exists text, convert_number_to_fixed_point_from_scaled self z = Ok text.
Proof.
  unfold supported, convert_number_to_fixed_point_from_scaled.
  destruct (String.eqb (language self) "zokrates"); [eauto|].
  destruct (String.eqb (language self) "rust"); [eauto|discriminate].
Qed.

Lemma well_formed_compiles (self : XGBoostLanguageConverter)
    (feature_indices : list string) (t : tree_structure) :
  supported self = true ->
  forall depth,
    well_formed (Z.of_nat (length feature_indices)) t = true ->
    exists text, _generate_tree_logic self t feature_indices depth = Ok text.
Proof.
  intros Hlang.
  induction t as [leaf split split_condition children IH] using tree_structure_ind.
  intros d Hwf.
  destruct leaf as [v|].
  - destruct split, split_condition, children; try discriminate.
    cbn [well_formed] in Hwf. cbn [_generate_tree_logic].
    destruct (scalable_int_round_mul v Hwf) as [z ->]; cbn [bind].
    destruct (from_scaled_supported self z Hlang) as [text ->]; cbn [bind].
    destruct (String.eqb (language self) "rust"); eauto.
  - destruct split as [[|c digits]|]; try discriminate.
    cbn [well_formed] in Hwf.
    destruct c as [[] [] [] [] [] [] [] []]; try discriminate.
    destruct split_condition as [thr|]; try discriminate.
    destruct children as [[|yes [|no [|? ?]]]|]; try discriminate.
    destruct (Py.int digits) as [i|] eqn:Hint; try discriminate.
    apply andb_prop in Hwf as [Hwf Hno]. apply andb_prop in Hwf as [Hwf Hyes].
    apply andb_prop in Hwf as [Hi Hthr]. apply andb_prop in Hi as [Hi0 HiF].
    cbn [kids] in IH.
    apply Forall_cons_1 in IH as [IHyes IH]. apply Forall_cons_1 in IH as [IHno _].
    cbn [_generate_tree_logic item bind Py.drop_first]. rewrite Hint; cbn [bind].
    destruct (getitem_nonneg feature_indices i) as (x & -> & _); [lia|]; cbn [bind].
    destruct (scalable_int_round_mul thr Hthr) as [z ->]; cbn [bind].
    destruct (from_scaled_supported self z Hlang) as [text ->]; cbn [bind].
    destruct (IHyes (d + 1) Hyes) as [yes_code ->]; cbn [bind].
    destruct (IHno (d + 1) Hno) as [no_code ->]; cbn [bind].
    eauto.
Qed.

Lemma condition_is_le (self : XGBoostLanguageConverter) (depth : Z)
    (feature_index threshold : string) :
  exists before after,
    condition self depth feature_index threshold
    = before +:+ "_le(f[" +:+ feature_index +:+ "], " +:+ threshold +:+ ")" +:+ after.
Proof.
  unfold condition.
  destruct (String.eqb (language self) "rust"), (depth =? 1).
  - exists "let tree_result = if fixed", " {"; reflexivity.
  - exists "if fixed", " {"; reflexivity.
  - exists "x = if i64", " {"; reflexivity.
  - exists "if i64", "{"; reflexivity.
Qed.

Section WellFormedSplit.

Variable self : XGBoostLanguageConverter.
Variable feature_indices : list string.

Hypothesis language_supported : supported self = true.

(** C1. A well-formed split [{split: "f<i>", split_condition, children:
    [yes, no]}] compiles, at every depth, to: the indentation, a condition
    that calls the dialect's [.._le] comparison on [f[i]] and the
    threshold literal (the threshold scaled by 10^10), a line break, the
    code of [children[0]] compiled at [depth + 1], the [else] line, the
    code of [children[1]] compiled at [depth + 1], and the closing lines.
    The code of the yes child therefore stands before the code of the no
    child. *)
Theorem split_le_yes_before_no
    (digits : string) (threshold_value : float64) (yes no : tree_structure)
    (depth : Z) :
  well_formed (Z.of_nat (length feature_indices))
    (Split (String "f" digits) threshold_value yes no) = true ->
  exists i feature_index threshold_scaled threshold yes_code no_code before after,
    Py.int digits = Ok i
    /\ 0 <= i < Z.of_nat (length feature_indices)
    /\ feature_indices !! Z.to_nat i = Some feature_index
    /\ int_round_mul threshold_value ten_pow_10 = Ok threshold_scaled
    /\ convert_number_to_fixed_point_from_scaled self threshold_scaled = Ok threshold
    /\ _generate_tree_logic self yes feature_indices (depth + 1) = Ok yes_code
    /\ _generate_tree_logic self no feature_indices (depth + 1) = Ok no_code
    /\ condition self depth feature_index threshold
       = before +:+ "_le(f[" +:+ feature_index +:+ "], " +:+ threshold +:+ ")" +:+ after
    /\ _generate_tree_logic self (Split (String "f" digits) threshold_value yes no)
         feature_indices depth
       = Ok (indent_of self depth
               +:+ condition self depth feature_index threshold +:+ nl
               +:+ yes_code
               +:+ indent_of self depth +:+ "} else {" +:+ nl
               +:+ no_code
               +:+ closing self depth).
Proof.
  intros Hwf. cbn [well_formed Split] in Hwf.
  destruct (Py.int digits) as [i|] eqn:Hint; try discriminate.
  apply andb_prop in Hwf as [Hwf Hno]. apply andb_prop in Hwf as [Hwf Hyes].
  apply andb_prop in Hwf as [Hi Hthr]. apply andb_prop in Hi as [Hi0 HiF].
  destruct (getitem_nonneg feature_indices i) as (x & Hget & Hx); [lia|].
  destruct (scalable_int_round_mul threshold_value Hthr) as [z Hz].
  destruct (from_scaled_supported self z language_supported) as [thr Hlit].
  destruct (well_formed_compiles self feature_indices yes language_supported
              (depth + 1) Hyes) as [yes_code Hy].
  destruct (well_formed_compiles self feature_indices no language_supported
              (depth + 1) Hno) as [no_code Hn].
  destruct (condition_is_le self depth x thr) as (before & after & Hcond).
  exists i, x, z, thr, yes_code, no_code, before, after.
  split; [reflexivity|]. split; [lia|].
  repeat (split; [assumption|]).
  cbn [_generate_tree_logic Split item bind Py.drop_first].
  rewrite Hint; cbn [bind]. rewrite Hget; cbn [bind]. rewrite Hz; cbn [bind].
  rewrite Hlit; cbn [bind]. rewrite Hy; cbn [bind]. rewrite Hn; cbn [bind].
  now rewrite !append_assoc.
Qed.

End WellFormedSplit.

Lemma split_le_yes_before_no_witness :
  exists i feature_index threshold_scaled threshold yes_code no_code before after,
    Py.int "0" = Ok i
    /\ 0 <= i < Z.of_nat (length ["0"])
    /\ ["0"] !! Z.to_nat i = Some feature_index
    /\ int_round_mul Sample.f_1_5 ten_pow_10 = Ok threshold_scaled
    /\ convert_number_to_fixed_point_from_scaled Sample.zokrates threshold_scaled
       = Ok threshold
    /\ _generate_tree_logic Sample.zokrates (Leaf Sample.f_0_1) ["0"] (1 + 1)
       = Ok yes_code
    /\ _generate_tree_logic Sample.zokrates (Leaf Sample.f_neg_0_2) ["0"] (1 + 1)
       = Ok no_code
    /\ condition Sample.zokrates 1 feature_index threshold
       = before +:+ "_le(f[" +:+ feature_index +:+ "], " +:+ threshold +:+ ")" +:+ after
    /\ _generate_tree_logic Sample.zokrates Sample.stump ["0"] 1
       = Ok (indent_of Sample.zokrates 1
               +:+ condition Sample.zokrates 1 feature_index threshold +:+ nl
               +:+ yes_code
               +:+ indent_of Sample.zokrates 1 +:+ "} else {" +:+ nl
               +:+ no_code
               +:+ closing Sample.zokrates 1).
Proof.
  apply (split_le_yes_before_no Sample.zokrates ["0"]); reflexivity.
Defined.

(** ** Feature indices outside the feature list *)

Section NegativeIndex.

Variable self : XGBoostLanguageConverter.
Variable feature_names : list string.

Hypothesis language_supported : supported self = true.

(** C10. Over a feature list of length [F], a split whose [split] field
    parses to a negative integer [i] with [-F <= i <= -1] is not
    rejected: the lookup yields the text of [F + i], and when the
    threshold can be scaled and both children compile the split compiles
    to a comparison on [f[F + i]]. *)
Theorem negative_index_wraps_around
    (split : string) (i : Z) (threshold_value : float64)
    (yes no : tree_structure) (others : list tree_structure)
    (depth : Z) (yes_code no_code : string) :
  Py.int (Py.drop_first split) = Ok i ->
  - Z.of_nat (length feature_names) <= i <= -1 ->
  scalable threshold_value = true ->
  _generate_tree_logic self yes (feature_names_to_indices feature_names)
    (depth + 1) = Ok yes_code ->
  _generate_tree_logic self no (feature_names_to_indices feature_names)
    (depth + 1) = Ok no_code ->
  Py.getitem (feature_names_to_indices feature_names) i
  = Ok (str (Z.of_nat (length feature_names) + i))
  /\ exists threshold,
      _generate_tree_logic self
        (Dict None (Some split) (Some threshold_value) (Some (yes :: no :: others)))
        (feature_names_to_indices feature_names) depth
      = Ok (indent_of self depth
              +:+ condition self depth
                    (str (Z.of_nat (length feature_names) + i)) threshold
              +:+ nl
              +:+ yes_code
              +:+ indent_of self depth +:+ "} else {" +:+ nl
              +:+ no_code
              +:+ closing self depth).
Proof.
  intros Hint Hi Hthr Hy Hn.
  pose proof (getitem_range_strs_negative (length feature_names) i Hi) as Hget.
  fold (feature_names_to_indices feature_names) in Hget.
  split; [exact Hget|].
  destruct (scalable_int_round_mul threshold_value Hthr) as [z Hz].
  destruct (from_scaled_supported self z language_supported) as [thr Hlit].
  exists thr.
  cbn [_generate_tree_logic item bind]. rewrite Hint; cbn [bind].
  rewrite Hget; cbn [bind]. rewrite Hz; cbn [bind]. rewrite Hlit; cbn [bind].
  rewrite Hy; cbn [bind]. rewrite Hn; cbn [bind].
  now rewrite !append_assoc.
Qed.

End NegativeIndex.

Lemma negative_index_wraps_around_witness :
  Py.getitem (feature_names_to_indices ["rain"; "wind"]) (-1)
  = Ok (str (Z.of_nat (length ["rain"; "wind"]) + -1))
  /\ exists threshold,
      _generate_tree_logic Sample.zokrates
        (Dict None (Some "f-1") (Some Sample.f_1_5)
           (Some [Leaf Sample.f_0_1; Leaf Sample.f_neg_0_2]))
        (feature_names_to_indices ["rain"; "wind"]) 1
      = Ok (indent_of Sample.zokrates 1
              +:+ condition Sample.zokrates 1
                    (str (Z.of_nat (length ["rain"; "wind"]) + -1)) threshold
              +:+ nl
              +:+ ("         i64{sgn:true, v: 1000000000}" +:+ nl)
              +:+ indent_of Sample.zokrates 1 +:+ "} else {" +:+ nl
              +:+ ("         i64{sgn:false, v: 2000000000}" +:+ nl)
              +:+ closing Sample.zokrates 1).
Proof.
  apply (negative_index_wraps_around Sample.zokrates ["rain"; "wind"]
           eq_refl "f-1" (-1) Sample.f_1_5 (Leaf Sample.f_0_1)
           (Leaf Sample.f_neg_0_2) [] 1
           ("         i64{sgn:true, v: 1000000000}" +:+ nl)
           ("         i64{sgn:false, v: 2000000000}" +:+ nl));
    [reflexivity | cbn; lia | reflexivity | reflexivity | reflexivity].
Defined.

(** C3 as stated fails: over one feature, the split [f-1] has its index
    outside [[0, 1)] and a well-formed threshold and children, yet it
    compiles (to a comparison on [f[0]]). *)
Lemma negative_index_counterexample :
  Py.int (Py.drop_first "f-1") = Ok (-1)
  /\ ~ (0 <= -1 < Z.of_nat (length ["0"]))
  /\ _generate_tree_logic Sample.zokrates
       (Split "f-1" Sample.f_1_5 (Leaf Sample.f_0_1) (Leaf Sample.f_neg_0_2))
       ["0"] 1
     = Ok ("    x = if i64_le(f[0], i64{sgn:true, v: 15000000000}) {" +:+ nl
             +:+ "         i64{sgn:true, v: 1000000000}" +:+ nl
             +:+ "    } else {" +:+ nl
             +:+ "         i64{sgn:false, v: 2000000000}" +:+ nl
             +:+ "     };" +:+ nl
             +:+ "     y = i64_add(y, x);" +:+ nl).
Proof.
  split; [reflexivity|]. split; [lia|]. vm_compute. reflexivity.
Qed.

(** One step of a computation that ends in an exception: either the
    step at the head raises, or it returns and the rest is considered. *)
Ltac raised_or_next :=
  match goal with
  | |- exists e, bind ?r _ = Raise e => destruct r; cbn [bind]; [|eauto]
  end.

Section Rejected.

Variable self : XGBoostLanguageConverter.
Variable feature_indices : list string.

Lemma rejected_raises (n : tree_structure) (e : exn) (depth : Z) :
  rejected (Z.of_nat (length feature_indices)) n e ->
  _generate_tree_logic self n feature_indices depth = Raise e.
Proof.
  intros [c ch | s c ch i Hint Hi]; cbn [_generate_tree_logic item bind].
  - reflexivity.
  - rewrite Hint; cbn [bind].
    now rewrite (getitem_out_of_range feature_indices i Hi).
Qed.

(** C3, amended. Over [F] features, a node without [leaf] key whose
    [split] parses to an index [i] with [i < -F] or [F <= i] raises
    IndexError, and a node with neither [leaf] nor [split] raises
    KeyError; compiling any tree in which the compiler reaches such a
    node raises an exception, so no text is returned for that tree. (An
    index in [[-F, -1]] is accepted, and the exceptions are Python's own:
    the source has no MalformedTreeError.) *)
Theorem out_of_range_index_raises (t n : tree_structure) (e : exn) :
  visits t n ->
  rejected (Z.of_nat (length feature_indices)) n e ->
  (e = IndexError \/ e = KeyError "split")
  /\ (forall depth, _generate_tree_logic self n feature_indices depth = Raise e)
  /\ (forall depth, exists e',
        _generate_tree_logic self t feature_indices depth = Raise e').
Proof.
  intros Hvisit Hrej.
  split; [destruct Hrej; auto|].
  split; [intros d; now apply rejected_raises|].
  induction Hvisit as [t | s c yes others n Hv IH | s c yes no others n Hv IH];
    intros d.
  - exists e. now apply rejected_raises.
  - cbn [_generate_tree_logic]. do 6 raised_or_next.
    destruct (IH Hrej (d + 1)) as [e' ->]; cbn [bind]. eauto.
  - cbn [_generate_tree_logic]. do 7 raised_or_next.
    destruct (IH Hrej (d + 1)) as [e' ->]; cbn [bind]. eauto.
Qed.

End Rejected.

Lemma out_of_range_index_raises_witness :
  (IndexError = IndexError \/ IndexError = KeyError "split")
  /\ (forall depth,
        _generate_tree_logic Sample.zokrates
          (Split "f1" Sample.f_1_5 (Leaf Sample.f_0_1) (Leaf Sample.f_neg_0_2))
          ["0"] depth
        = Raise IndexError)
  /\ (forall depth, exists e',
        _generate_tree_logic Sample.zokrates
          (Split "f0" Sample.f_1_5 (Leaf Sample.f_0_25)
             (Split "f1" Sample.f_1_5 (Leaf Sample.f_0_1) (Leaf Sample.f_neg_0_2)))
          ["0"] depth
        = Raise e').
Proof.
  apply (out_of_range_index_raises Sample.zokrates ["0"]).
  - apply visits_no, visits_here.
  - apply (rejected_index _ _ _ _ 1); [reflexivity | cbn; lia].
Defined.

(** ** The ensemble loop *)

Section Ensemble.

Variable self : XGBoostLanguageConverter.
Variable feature_indices : list string.
Variable num_trees : Z.

Lemma tree_loop_blocks (template : string) :
  templates self !! "tree" = Some template ->
  forall (trees_dump : list tree_structure) (idx : nat) (tree_codes : list string),
    tree_loop self trees_dump feature_indices num_trees (Z.of_nat idx) tree_codes
    = let! blocks :=
        collect (imap (fun j => tree_block self template feature_indices (idx + j))
                   (take (Z.to_nat (num_trees - Z.of_nat idx)) trees_dump)) in
      Ok (tree_codes ++ blocks).
Proof.
  intros Htpl trees. induction trees as [|t rest IH]; intros idx acc.
  - rewrite take_nil. cbn. now rewrite app_nil_r.
  - cbn [tree_loop]. destruct (Z.leb_spec num_trees (Z.of_nat idx)) as [Hge|Hlt].
    + replace (Z.to_nat (num_trees - Z.of_nat idx)) with 0%nat by lia.
      cbn. now rewrite app_nil_r.
    + replace (Z.to_nat (num_trees - Z.of_nat idx))
        with (S (Z.to_nat (num_trees - Z.of_nat (S idx)))) by lia.
      cbn [take imap collect]. rewrite Htpl. unfold tree_block at 1.
      rewrite Nat.add_0_r.
      destruct (_generate_tree_logic self t feature_indices 1) as [logic|e];
        cbn [bind]; [|reflexivity].
      destruct (Py.format template _) as [block|e]; cbn [bind]; [|reflexivity].
      replace (Z.of_nat idx + 1) with (Z.of_nat (S idx)) by lia.
      rewrite IH.
      rewrite (imap_ext (tree_block self template feature_indices ∘ Nat.add idx ∘ S)
                 (fun j => tree_block self template feature_indices (S idx + j)))
        by (intros; cbn; f_equal; lia).
      destruct (collect _) as [blocks|e]; cbn [bind]; [|reflexivity].
      now rewrite <- app_assoc.
Qed.

End Ensemble.

Section EnsembleBound.

Variable self : XGBoostLanguageConverter.
Variable template : string.
Variable trees_dump : list tree_structure.
Variable feature_names : list string.
Variable k : nat.

Hypothesis tree_template : templates self !! "tree" = Some template.
Hypothesis fewer_than_all : (k < length trees_dump)%nat.

(** C2. With a dump of N trees and a cap [k < N], the loop builds the
    blocks of the first [k] trees and no other, in the order of the dump:
    block [i] is the [tree] template filled with [tree_idx = i] and the
    logic of tree [i] compiled at depth 1, for [i = 0 .. k-1]; the main
    template receives these blocks joined by line breaks. *)
Theorem first_k_trees_in_order :
  tree_loop self trees_dump (feature_names_to_indices feature_names)
    (Z.of_nat k) 0 []
  = collect (imap (tree_block self template (feature_names_to_indices feature_names))
               (take k trees_dump))
  /\ convert_xgboost_to_code self trees_dump feature_names (Z.of_nat k)
     = (let! blocks :=
          collect (imap (tree_block self template
                           (feature_names_to_indices feature_names))
                     (take k trees_dump)) in
        let! main_code := main_part self feature_names blocks in
        let! test_code := test_part self feature_names in
        Ok (Py.join nl (header_part self ++ main_code ++ test_code)))
  /\ forall blocks,
      collect (imap (tree_block self template
                       (feature_names_to_indices feature_names))
                 (take k trees_dump))
      = Ok blocks ->
      length blocks = k
      /\ forall i, (i < k)%nat ->
           exists tree tree_logic block,
             trees_dump !! i = Some tree
             /\ _generate_tree_logic self tree
                  (feature_names_to_indices feature_names) 1 = Ok tree_logic
             /\ Py.format template
                  {[ "tree_idx" := str (Z.of_nat i); "tree_logic" := tree_logic ]}
                = Ok block
             /\ blocks !! i = Some block.
Proof.
  set (feature_indices := feature_names_to_indices feature_names).
  assert (Hloop :
    tree_loop self trees_dump feature_indices (Z.of_nat k) 0 []
    = collect (imap (tree_block self template feature_indices) (take k trees_dump))).
  { change 0 with (Z.of_nat 0) at 1.
    rewrite (tree_loop_blocks self feature_indices (Z.of_nat k) template
               tree_template trees_dump 0 []).
    replace (Z.to_nat (Z.of_nat k - Z.of_nat 0)) with k by lia.
    cbn [Nat.add app].
    destruct (collect _); reflexivity. }
  split; [exact Hloop|]. split.
  - unfold convert_xgboost_to_code. fold feature_indices. now rewrite Hloop.
  - intros blocks Hblocks.
    destruct (collect_Ok _ _ Hblocks) as [Hlen Hall].
    rewrite length_imap, length_take in Hlen.
    split; [lia|]. intros i Hi.
    destruct (lookup_lt_is_Some_2 trees_dump i) as [tree Htree]; [lia|].
    destruct (Hall i (tree_block self template feature_indices i tree))
      as (block & Hblock & Hi_block).
    { rewrite list_lookup_imap, lookup_take_lt by lia. now rewrite Htree. }
    unfold tree_block in Hblock. apply bind_Ok in Hblock as (logic & Hlogic & Hfmt).
    exists tree, logic, block. auto.
Qed.

End EnsembleBound.

Lemma first_k_trees_in_order_witness :
  convert_xgboost_to_code Sample.zokrates
    [Sample.stump; Leaf Sample.f_0_25; Dict None None None None] ["rain"]
    (Z.of_nat 2)
  = Ok ("// helpers" +:+ nl +:+ "def main(i64[1] f) {" +:+ nl
          +:+ "// tree 0" +:+ nl
          +:+ "    x = if i64_le(f[0], i64{sgn:true, v: 15000000000}) {" +:+ nl
          +:+ "         i64{sgn:true, v: 1000000000}" +:+ nl
          +:+ "    } else {" +:+ nl
          +:+ "         i64{sgn:false, v: 2000000000}" +:+ nl
          +:+ "     };" +:+ nl
          +:+ "     y = i64_add(y, x);" +:+ nl +:+ nl
          +:+ "// tree 1" +:+ nl
          +:+ "     i64{sgn:true, v: 2500000000}" +:+ nl +:+ nl
          +:+ "}").
Proof.
  destruct (first_k_trees_in_order Sample.zokrates
              ("// tree {tree_idx}" +:+ nl +:+ "{tree_logic}")
              [Sample.stump; Leaf Sample.f_0_25; Dict None None None None]
              ["rain"] 2 eq_refl) as (_ & -> & _).
  - cbn; lia.
  - vm_compute. reflexivity.
Defined.

(** ** Template roles that are absent *)

Section MissingTemplates.

Variable self : XGBoostLanguageConverter.
Variable trees_dump : list tree_structure.
Variable feature_names : list string.
Variable num_trees : Z.

(** What can still raise: compiling the trees under the cap, and
    formatting the templates that are present. *)
Hypothesis trees_compile :
  Forall (fun tree =>
            is_ok (_generate_tree_logic self tree
                     (feature_names_to_indices feature_names) 1) = true)
    (take (Z.to_nat num_trees) trees_dump).
Hypothesis tree_template_formats :
  forall template tree_idx tree_logic,
    templates self !! "tree" = Some template ->
    is_ok (Py.format template
             {[ "tree_idx" := tree_idx; "tree_logic" := tree_logic ]}) = true.
Hypothesis main_template_formats :
  forall template num_features tree_code,
    templates self !! "main" = Some template ->
    is_ok (Py.format template
             {[ "num_features" := num_features; "tree_code" := tree_code ]}) = true.
Hypothesis test_template_formats :
  is_ok (test_part self feature_names) = true.

Lemma tree_loop_succeeds (trees : list tree_structure) :
  forall (idx : Z) (acc : list string),
    Forall (fun tree =>
              is_ok (_generate_tree_logic self tree
                       (feature_names_to_indices feature_names) 1) = true)
      (take (Z.to_nat (num_trees - idx)) trees) ->
    exists tree_codes,
      tree_loop self trees (feature_names_to_indices feature_names)
        num_trees idx acc = Ok (acc ++ tree_codes)
      /\ (templates self !! "tree" = None -> tree_codes = []).
Proof.
  induction trees as [|t rest IH]; intros idx acc Hok.
  - exists []. cbn. now rewrite app_nil_r.
  - cbn [tree_loop]. destruct (Z.leb_spec num_trees idx) as [Hge|Hlt].
    + exists []. now rewrite app_nil_r.
    + replace (Z.to_nat (num_trees - idx))
        with (S (Z.to_nat (num_trees - (idx + 1)))) in Hok by lia.
      cbn [take] in Hok. apply Forall_cons_1 in Hok as [Ht Hrest].
      destruct (_generate_tree_logic self t _ 1) as [logic|e];
        [|discriminate]; cbn [bind].
      destruct (templates self !! "tree") as [template|] eqn:Htpl.
      * pose proof (tree_template_formats template (str idx) logic eq_refl) as Hf.
        destruct (Py.format template _) as [block|e]; [|discriminate]; cbn [bind].
        destruct (IH (idx + 1) (acc ++ [block]) Hrest) as (codes & -> & _).
        exists (block :: codes). rewrite <- app_assoc. split; [reflexivity|].
        discriminate.
      * exact (IH (idx + 1) acc Hrest).
Qed.

(** C6. When a role among [header], [main] and [tree] is absent from the
    template set, [convert_xgboost_to_code] raises nothing on its
    account: provided the trees under the cap compile and the templates
    that are present format, it returns the present sections joined by
    line breaks, with no header when [header] is absent, no per-tree
    block when [tree] is absent and no main section when [main] is
    absent. *)
Theorem absent_roles_are_skipped :
  templates self !! "header" = None
  \/ templates self !! "main" = None
  \/ templates self !! "tree" = None ->
  exists tree_codes main_code test_code,
    tree_loop self trees_dump (feature_names_to_indices feature_names)
      num_trees 0 [] = Ok tree_codes
    /\ main_part self feature_names tree_codes = Ok main_code
    /\ test_part self feature_names = Ok test_code
    /\ convert_xgboost_to_code self trees_dump feature_names num_trees
       = Ok (Py.join nl (header_part self ++ main_code ++ test_code))
    /\ (templates self !! "header" = None -> header_part self = [])
    /\ (templates self !! "tree" = None -> tree_codes = [])
    /\ (templates self !! "main" = None -> main_code = []).
Proof.
  intros _.
  destruct (tree_loop_succeeds trees_dump 0 []) as (codes & Hloop & Hcodes).
  { now rewrite Z.sub_0_r. }
  cbn [app] in Hloop.
  assert (Hmain : exists main_code,
             main_part self feature_names codes = Ok main_code
             /\ (templates self !! "main" = None -> main_code = [])).
  { unfold main_part.
    destruct (templates self !! "main") as [template|] eqn:Htpl.
    - pose proof (main_template_formats template
                    (str (Z.of_nat (length feature_names)))
                    (Py.join nl codes) eq_refl) as Hf.
      destruct (Py.format template _) as [text|e]; [|discriminate]; cbn [bind].
      eexists; split; [reflexivity|discriminate].
    - eexists; split; reflexivity. }
  destruct Hmain as (main_code & Hmain & Hno_main).
  destruct (test_part self feature_names) as [test_code|e] eqn:Htest;
    [|discriminate].
  exists codes, main_code, test_code.
  split; [exact Hloop|]. split; [exact Hmain|]. split; [reflexivity|].
  split.
  - unfold convert_xgboost_to_code.
    rewrite Hloop; cbn [bind]. rewrite Hmain; cbn [bind].
    rewrite Htest; cbn [bind]. reflexivity.
  - split; [|split]; [|exact Hcodes|exact Hno_main].
    unfold header_part. now intros ->.
Qed.

End MissingTemplates.

Lemma absent_roles_are_skipped_witness :
  exists tree_codes main_code test_code,
    tree_loop Sample.main_only [Sample.stump] (feature_names_to_indices ["rain"])
      1 0 [] = Ok tree_codes
    /\ main_part Sample.main_only ["rain"] tree_codes = Ok main_code
    /\ test_part Sample.main_only ["rain"] = Ok test_code
    /\ convert_xgboost_to_code Sample.main_only [Sample.stump] ["rain"] 1
       = Ok (Py.join nl (header_part Sample.main_only ++ main_code ++ test_code))
    /\ (templates Sample.main_only !! "header" = None ->
        header_part Sample.main_only = [])
    /\ (templates Sample.main_only !! "tree" = None -> tree_codes = [])
    /\ (templates Sample.main_only !! "main" = None -> main_code = []).
Proof.
  apply (absent_roles_are_skipped Sample.main_only [Sample.stump] ["rain"] 1).
  - repeat constructor.
  - intros template tree_idx tree_logic Habsent. discriminate Habsent.
  - intros template num_features tree_code Hmain.
    injection Hmain as <-. reflexivity.
  - reflexivity.
  - left. reflexivity.
Defined.

(** The text the converter returns for a template set with the [main]
    role only: the main section, with an empty tree code. *)
Example main_only_output :
  convert_xgboost_to_code Sample.main_only [Sample.stump] ["rain"] 1
  = Ok ("fn predict() {" +:+ nl +:+ "}").
Proof. vm_compute. reflexivity. Qed.

(** ** Sign and magnitude of a scaled value *)

Lemma binary_round_aux_shape (s : bool) (m e : Z) (l : location) :
  binary_round_aux prec emax s m e l = S754_nan
  \/ binary_round_aux prec emax s m e l = S754_zero s
  \/ binary_round_aux prec emax s m e l = S754_infinity s
  \/ exists m' e', binary_round_aux prec emax s m e l = S754_finite s m' e'.
Proof.
  unfold binary_round_aux.
  destruct (shr_fexp prec emax m e l) as [mrs e1].
  destruct (shr_fexp prec emax _ e1 loc_Exact) as [mrs' e2].
  destruct (shr_m mrs'); [auto| |auto].
  destruct (e2 <=? emax - prec); eauto 6.
Qed.

Lemma binary_round_aux_abs (s s' : bool) (m e : Z) (l : location) :
  SFabs (binary_round_aux prec emax s m e l)
  = SFabs (binary_round_aux prec emax s' m e l).
Proof.
  unfold binary_round_aux.
  destruct (shr_fexp prec emax m e l) as [mrs e1].
  destruct (shr_fexp prec emax _ e1 loc_Exact) as [mrs' e2].
  destruct (shr_m mrs'); [reflexivity| |reflexivity].
  destruct (e2 <=? emax - prec); reflexivity.
Qed.

Lemma round_half_even_nonneg (m k : positive) : 0 <= round_half_even (Zpos m) k.
Proof.
  unfold round_half_even.
  assert (0 < 2 ^ Zpos k) by (apply Z.pow_pos_nonneg; lia).
  assert (0 <= Zpos m / 2 ^ Zpos k) by (apply Z.div_pos; lia).
  destruct (_ ?= _); [destruct (Z.even _)| |]; lia.
Qed.

Lemma to_int_np_round_sign (s : bool) (x : float64) (z : Z) :
  has_sign s x -> to_int (np_round x) = Ok z -> if s then z <= 0 else 0 <= z.
Proof.
  destruct x as [s'|s'| |s' m e]; cbn [has_sign]; try contradiction; intros ->.
  - cbn. intros [= <-]. destruct s; lia.
  - discriminate.
  - assert (Hshift : forall n e', 0 <= Z.shiftl (Zpos n) e')
      by (intros; apply Z.shiftl_nonneg; lia).
    destruct e as [|p|k]; cbn [np_round to_int].
    + intros [= <-]. specialize (Hshift m 0). destruct s; cbn [cond_Zopp]; lia.
    + intros [= <-]. specialize (Hshift m (Zpos p)). destruct s; cbn [cond_Zopp]; lia.
    + destruct (round_half_even (Zpos m) k) as [|n|n]; cbn [to_int];
        intros [= <-]; try (destruct s; lia).
      specialize (Hshift n 0). destruct s; cbn [cond_Zopp]; lia.
Qed.

Lemma to_int_np_round_abs (x x' : float64) (z : Z) :
  SFabs x' = SFabs x -> to_int (np_round x) = Ok z ->
  exists z', to_int (np_round x') = Ok z' /\ Z.abs z' = Z.abs z.
Proof.
  destruct x as [s|s| |s m e], x' as [s'|s'| |s' m' e']; try discriminate;
    cbn [SFabs]; intros Habs.
  - intros [= <-]. exists 0. split; reflexivity.
  - injection Habs as -> ->.
    destruct e as [|p|k]; cbn [np_round to_int].
    + intros [= <-]. eexists; split; [reflexivity|]. destruct s, s'; cbn; lia.
    + intros [= <-]. eexists; split; [reflexivity|]. destruct s, s'; cbn; lia.
    + destruct (round_half_even (Zpos m) k) as [|n|n]; cbn [to_int];
        intros [= <-]; eexists; (split; [reflexivity|]);
        destruct s, s'; cbn; lia.
Qed.

Lemma mul_sign (value multiplier : float64) :
  nonneg multiplier = true ->
  mul value multiplier = S754_nan
  \/ (exists s, mul value multiplier = S754_zero s)
  \/ has_sign (negb (nonneg value)) (mul value multiplier).
Proof.
  destruct multiplier as [sm|sm| |sm mm em]; try discriminate;
    destruct value as [sv|sv| |sv mv ev]; cbn [nonneg mul SFmul has_sign];
    intros Hm; eauto;
    try (apply negb_true_iff in Hm; subst sm).
  - right; right. now rewrite xorb_false_r, negb_involutive.
  - right; right. now rewrite xorb_false_r, negb_involutive.
  - right; right. now rewrite xorb_false_r, negb_involutive.
  - fold prec emax. rewrite xorb_false_r.
    destruct (binary_round_aux_shape sv (Zpos (mv * mm)) (ev + em) loc_Exact)
      as [-> | [-> | [-> | (m' & e' & ->)]]]; cbn [has_sign]; eauto;
      right; right; now rewrite negb_involutive.
Qed.

Lemma mul_abs (value multiplier : float64) :
  SFabs (mul (SFabs value) multiplier) = SFabs (mul value multiplier).
Proof.
  destruct multiplier as [sm|sm| |sm mm em], value as [sv|sv| |sv mv ev];
    cbn [SFabs mul SFmul]; try reflexivity.
  apply binary_round_aux_abs.
Qed.

Lemma nonneg_SFabs (value : float64) :
  value <> S754_nan -> nonneg (SFabs value) = true.
Proof. destruct value; cbn; congruence. Qed.

Section SignMagnitude.

Variable self : XGBoostLanguageConverter.

Hypothesis multiplier_nonneg :
  nonneg (precision_multiplier (config self)) = true.

(** C4, amended. For a float [v] that [convert_number_to_fixed_point]
    scales to the integer [z] (with a multiplier that is not negative):
    the sign is non-negative if and only if [v >= 0] or [z = 0], so a
    negative [v] that rounds to zero is rendered with the non-negative
    sign; the magnitude [|z|] is the scaled value of [|v|], that is the
    binary64 product of [|v|] and the multiplier rounded half to even;
    and the sign/magnitude literal carries exactly this sign and
    magnitude. *)
Theorem sign_follows_scaled_value (value : float64) (z : Z) :
  int_round_mul value (precision_multiplier (config self)) = Ok z ->
  (0 <= z <-> nonneg value = true \/ z = 0)
  /\ int_round_mul (SFabs value) (precision_multiplier (config self))
     = Ok (Z.abs z)
  /\ (language self = "zokrates" ->
      convert_number_to_fixed_point self value
      = Ok ("i64{sgn:" +:+ (if nonneg value || (z =? 0) then "true" else "false")
              +:+ ", v: " +:+ str (Z.abs z) +:+ "}")).
Proof.
  set (multiplier := precision_multiplier (config self)) in *.
  unfold int_round_mul. intros Hz.
  assert (Hsign : 0 <= z <-> nonneg value = true \/ z = 0).
  { destruct (mul_sign value multiplier multiplier_nonneg)
      as [Hnan | [[s Hzero] | Hs]].
    - rewrite Hnan in Hz. discriminate.
    - rewrite Hzero in Hz. injection Hz as <-. intuition lia.
    - pose proof (to_int_np_round_sign _ _ _ Hs Hz) as Hcmp.
      destruct (nonneg value); cbn [negb] in Hcmp; intuition (try lia; try congruence). }
  split; [exact Hsign|]. split.
  - destruct (to_int_np_round_abs (mul value multiplier)
                (mul (SFabs value) multiplier) z (mul_abs value multiplier) Hz)
      as (z' & Hz' & Habs).
    rewrite Hz'. f_equal.
    assert (Hnot_nan : value <> S754_nan).
    { intros ->. destruct multiplier; discriminate. }
    destruct (mul_sign (SFabs value) multiplier multiplier_nonneg)
      as [Hnan | [[s Hzero] | Hs]].
    + rewrite Hnan in Hz'. discriminate.
    + rewrite Hzero in Hz'. injection Hz' as <-. lia.
    + rewrite (nonneg_SFabs value Hnot_nan) in Hs. cbn [negb] in Hs.
      pose proof (to_int_np_round_sign _ _ _ Hs Hz') as Hcmp. cbn in Hcmp. lia.
  - intros Hlang. unfold convert_number_to_fixed_point, int_round_mul.
    fold multiplier. rewrite Hz; cbn [bind]. rewrite Hlang.
    cbn [String.eqb Ascii.eqb Bool.eqb]. unfold sign_magnitude_literal.
    do 3 f_equal.
    destruct (Z.leb_spec 0 z) as [Hle|Hlt], (Z.eqb_spec z 0) as [Heq|Hne],
      (nonneg value); cbn [orb]; try reflexivity; exfalso; intuition lia.
Qed.

End SignMagnitude.

Lemma sign_follows_scaled_value_witness :
  (0 <= 0 <-> nonneg Sample.f_neg_tiny = true \/ 0 = 0)
  /\ int_round_mul (SFabs Sample.f_neg_tiny) ten_pow_10 = Ok (Z.abs 0)
  /\ (language Sample.zokrates = "zokrates" ->
      convert_number_to_fixed_point Sample.zokrates Sample.f_neg_tiny
      = Ok ("i64{sgn:"
              +:+ (if nonneg Sample.f_neg_tiny || (0 =? 0) then "true" else "false")
              +:+ ", v: " +:+ str (Z.abs 0) +:+ "}")).
Proof.
  apply (sign_follows_scaled_value Sample.zokrates); reflexivity.
Defined.

(** C4 as stated fails: [-2^-40] is negative, its scaled value is 0 and
    the literal carries the non-negative sign. *)
Lemma sign_mismatch_counterexample :
  nonneg Sample.f_neg_tiny = false
  /\ int_round_mul Sample.f_neg_tiny ten_pow_10 = Ok 0
  /\ convert_number_to_fixed_point Sample.zokrates Sample.f_neg_tiny
     = Ok "i64{sgn:true, v: 0}"
  /\ ~ (forall value z,
          int_round_mul value ten_pow_10 = Ok z ->
          (0 <= z <-> nonneg value = true)).
Proof.
  split; [reflexivity|]. split; [reflexivity|]. split; [reflexivity|].
  intros H. specialize (H Sample.f_neg_tiny 0 eq_refl).
  destruct H as [H _]. specialize (H (Z.le_refl 0)). discriminate H.
Qed.

(** ** The quantization error *)

Lemma round_half_even_error (m k : positive) :
  Z.abs (2 * (round_half_even (Zpos m) k * 2 ^ Zpos k) - 2 * Zpos m) <= 2 ^ Zpos k.
Proof.
  unfold round_half_even.
  assert (Hpow : 0 < 2 ^ Zpos k) by (apply Z.pow_pos_nonneg; lia).
  pose proof (Z.div_mod (Zpos m) (2 ^ Zpos k) ltac:(lia)) as Hdm.
  pose proof (Z.mod_pos_bound (Zpos m) (2 ^ Zpos k) Hpow) as Hrem.
  destruct (Z.compare_spec (2 * (Zpos m mod 2 ^ Zpos k)) (2 ^ Zpos k));
    [destruct (Z.even _)| |]; nia.
Qed.

Lemma Qabs_diff_half (a b : Z) (d : positive) :
  Z.abs (2 * (a * Zpos d) - 2 * b) <= Zpos d ->
  (Qabs (inject_Z a - (b # d)) <= 1 # 2)%Q.
Proof.
  intros H. unfold Qle, Qabs, Qminus, Qplus, Qopp, inject_Z; cbn [Qnum Qden].
  rewrite Pos.mul_1_l. lia.
Qed.

Lemma to_int_np_round_error (x : float64) (z : Z) :
  to_int (np_round x) = Ok z -> (Qabs (inject_Z z - to_Q x) <= 1 # 2)%Q.
Proof.
  destruct x as [s|s| |s m e]; try discriminate.
  - intros [= <-]. cbn. discriminate.
  - destruct e as [|p|k]; cbn [np_round to_int to_Q].
    + intros [= <-]. rewrite Z.shiftl_0_r, Z.mul_1_r.
      unfold Qminus. rewrite Qplus_opp_r. discriminate.
    + intros [= <-]. rewrite Z.shiftl_mul_pow2 by lia.
      replace (cond_Zopp s (Zpos m * 2 ^ Zpos p))
        with (cond_Zopp s (Zpos m) * 2 ^ Zpos p) by (destruct s; cbn; lia).
      unfold Qminus. rewrite Qplus_opp_r. discriminate.
    + intros Hz. apply Qabs_diff_half.
      pose proof (round_half_even_error m k) as Herr.
      pose proof (round_half_even_nonneg m k) as Hnn.
      rewrite Pos2Z.inj_pow.
      destruct (round_half_even (Zpos m) k) as [|n|n]; cbn [to_int] in Hz;
        injection Hz as <-; try lia.
      * destruct s; cbn [cond_Zopp]; lia.
      * rewrite Z.shiftl_0_r. destruct s; cbn [cond_Zopp]; lia.
Qed.

(** *** The rounding of the binary64 product *)

Lemma digits2_pos_bounds (p : positive) :
  2 ^ (Zpos (digits2_pos p) - 1) <= Zpos p < 2 ^ Zpos (digits2_pos p).
Proof.
  induction p as [p IH|p IH|]; cbn [digits2_pos].
  - rewrite Pos2Z.inj_succ.
    replace (Z.succ (Zpos (digits2_pos p)) - 1)
      with (Z.succ (Zpos (digits2_pos p) - 1)) by lia.
    rewrite !Z.pow_succ_r by lia. lia.
  - rewrite Pos2Z.inj_succ.
    replace (Z.succ (Zpos (digits2_pos p)) - 1)
      with (Z.succ (Zpos (digits2_pos p) - 1)) by lia.
    rewrite !Z.pow_succ_r by lia. lia.
  - cbn. lia.
Qed.

Lemma iter_pos_nat {A : Type} (f : A -> A) (p : positive) (x : A) :
  SpecFloat.iter_pos f p x = Nat.iter (Pos.to_nat p) f x.
Proof.
  revert x. induction p as [p IH|p IH|]; intros x; cbn [SpecFloat.iter_pos].
  - rewrite !IH, Pos2Nat.inj_xI.
    replace (S (2 * Pos.to_nat p)) with (Pos.to_nat p + S (Pos.to_nat p))%nat by lia.
    now rewrite Nat.iter_add, Nat.iter_succ_r.
  - rewrite !IH, Pos2Nat.inj_xO.
    replace (2 * Pos.to_nat p)%nat with (Pos.to_nat p + Pos.to_nat p)%nat by lia.
    now rewrite Nat.iter_add.
  - reflexivity.
Qed.

(** After [k] right shifts of [m], the record holds the quotient, the
    bit shifted out last and whether anything was shifted out before. *)
Lemma shr_1_iter (m : Z) (k : nat) :
  0 <= m ->
  exists q r s b t,
    Nat.iter k shr_1 (Build_shr_record m false false) = Build_shr_record q r s
    /\ 2 * m = q * 2 ^ (Z.of_nat k + 1) + b * 2 ^ Z.of_nat k + t
    /\ 0 <= t < 2 ^ Z.of_nat k
    /\ (b = 0 \/ b = 1)
    /\ r = (b =? 1)
    /\ s = negb (t =? 0)
    /\ 0 <= q.
Proof.
  intros Hm. induction k as [|k IH].
  - exists m, false, false, 0, 0. cbn. repeat split; lia.
  - rewrite Nat.iter_succ.
    destruct IH as (q & r & s & b & t & -> & Heq & Ht & Hb & Hr & Hs & Hq).
    rewrite Nat2Z.inj_succ.
    replace (Z.succ (Z.of_nat k) + 1) with (Z.succ (Z.of_nat k + 1)) by lia.
    rewrite !Z.pow_succ_r by lia.
    assert (Hpow : 0 < 2 ^ Z.of_nat k) by (apply Z.pow_pos_nonneg; lia).
    rewrite Z.pow_add_r, Z.pow_1_r in Heq |- * by lia.
    assert (Hs' : (r || s) = negb (b * 2 ^ Z.of_nat k + t =? 0)).
    { subst r s. destruct Hb as [-> | ->].
      - now rewrite Z.mul_0_l, Z.add_0_l.
      - cbn [Z.eqb Pos.eqb orb]. symmetry. apply negb_true_iff, Z.eqb_neq. lia. }
    destruct q as [|[p|p|]|p]; cbn [shr_1]; try lia.
    + exists 0, false, (r || s), 0, (b * 2 ^ Z.of_nat k + t).
      repeat split; try nia; auto.
    + exists (Zpos p), true, (r || s), 1, (b * 2 ^ Z.of_nat k + t).
      repeat split; try nia; auto.
    + exists (Zpos p), false, (r || s), 0, (b * 2 ^ Z.of_nat k + t).
      repeat split; try nia; auto.
    + exists 0, true, (r || s), 1, (b * 2 ^ Z.of_nat k + t).
      repeat split; try nia; auto.
Qed.

Lemma shift_and_round (m n : positive) :
  exists q r s,
    SpecFloat.iter_pos shr_1 n (Build_shr_record (Zpos m) false false)
    = Build_shr_record q r s
    /\ 0 <= q
    /\ q * 2 ^ Zpos n <= Zpos m
    /\ q <= round_nearest_even q (loc_of_shr_record (Build_shr_record q r s)) <= q + 1
    /\ Z.abs (2 * (round_nearest_even q
                     (loc_of_shr_record (Build_shr_record q r s)) * 2 ^ Zpos n)
              - 2 * Zpos m) <= 2 ^ Zpos n.
Proof.
  rewrite iter_pos_nat.
  destruct (shr_1_iter (Zpos m) (Pos.to_nat n))
    as (q & r & s & b & t & -> & Heq & Ht & Hb & -> & -> & Hq); [lia|].
  rewrite positive_nat_Z in Heq, Ht.
  rewrite Z.pow_add_r, Z.pow_1_r in Heq by lia.
  assert (Hpow : 0 < 2 ^ Zpos n) by (apply Z.pow_pos_nonneg; lia).
  exists q, (b =? 1), (negb (t =? 0)).
  split; [reflexivity|]. split; [exact Hq|]. split; [nia|].
  destruct Hb as [-> | ->]; destruct (Z.eqb_spec t 0) as [-> | Hne];
    cbn [Z.eqb Pos.eqb negb loc_of_shr_record round_nearest_even].
  - split; lia.
  - split; lia.
  - destruct (Z.even q); split; lia.
  - split; lia.
Qed.

Lemma fexp_eq (x : Z) : fexp prec emax x = Z.max (x - 53) (-1074).
Proof. reflexivity. Qed.

Lemma pow2_lt_mono (a b : Z) : 0 <= a -> 2 ^ a < 2 ^ b -> a < b.
Proof.
  intros Ha Hlt. destruct (Z.lt_ge_cases a b) as [?|Hge]; [assumption|].
  destruct (Z.lt_ge_cases b 0) as [Hb|Hb].
  - rewrite (Z.pow_neg_r 2 b Hb) in Hlt.
    assert (0 < 2 ^ a) by (apply Z.pow_pos_nonneg; lia). lia.
  - pose proof (Z.pow_le_mono_r 2 b a ltac:(lia) Hge). lia.
Qed.

(** The first shift and the rounding of [binary_round_aux]. *)
Lemma first_stage (m : positive) (e : Z) (mrs : shr_record) (e' : Z) :
  shr_fexp prec emax (Zpos m) e loc_Exact = (mrs, e') ->
  exists n,
    0 <= n
    /\ e' = e + n
    /\ e' = Z.max e (fexp prec emax (Zpos (digits2_pos m) + e))
    /\ 0 <= round_nearest_even (shr_m mrs) (loc_of_shr_record mrs) <= 2 ^ 53
    /\ Z.abs (2 * (round_nearest_even (shr_m mrs) (loc_of_shr_record mrs) * 2 ^ n)
              - 2 * Zpos m)
       <= (if n =? 0 then 0 else 2 ^ n).
Proof.
  unfold shr_fexp, shr. cbn [Zdigits2 shr_record_of_loc].
  pose proof (digits2_pos_bounds m) as [Hlow Hhigh].
  rewrite fexp_eq.
  set (d := Zpos (digits2_pos m)) in *.
  destruct (Z.max (d + e - 53) (-1074) - e) as [|p|p] eqn:Hn.
  - intros [= <- <-]. exists 0. cbn [shr_m loc_of_shr_record round_nearest_even].
    assert (d <= 53) by lia.
    pose proof (Z.pow_le_mono_r 2 d 53 ltac:(lia) ltac:(lia)).
    repeat split; try lia. cbn. lia.
  - intros [= <- <-].
    destruct (shift_and_round m p) as (q & r & s & -> & Hq & Hqm & Hm1 & Herr).
    exists (Zpos p). cbn [shr_m Z.eqb].
    assert (Hd : d <= Zpos p + 53) by lia.
    pose proof (Z.pow_le_mono_r 2 d (Zpos p + 53) ltac:(lia) Hd) as Hpow.
    rewrite Z.pow_add_r in Hpow by lia.
    assert (0 < 2 ^ Zpos p) by (apply Z.pow_pos_nonneg; lia).
    repeat split; try lia. nia.
  - intros [= <- <-]. exists 0. cbn [shr_m loc_of_shr_record round_nearest_even].
    assert (d <= 53) by lia.
    pose proof (Z.pow_le_mono_r 2 d 53 ltac:(lia) ltac:(lia)).
    repeat split; try lia. cbn. lia.
Qed.

(** The second shift of [binary_round_aux], after a mantissa that
    rounding may have carried to [2^53]. *)
Lemma second_stage (m1 e' : Z) (mrs : shr_record) (e'' : Z) :
  0 <= m1 <= 2 ^ 53 -> -1074 <= e' ->
  shr_fexp prec emax m1 e' loc_Exact = (mrs, e'') ->
  0 <= shr_m mrs /\ shr_m mrs * 2 ^ (e'' - e') = m1 /\ e' <= e'' <= e' + 1.
Proof.
  intros Hm1 He'. unfold shr_fexp, shr. cbn [shr_record_of_loc].
  rewrite fexp_eq.
  destruct m1 as [|p|p]; [| |lia].
  - cbn [Zdigits2].
    destruct (Z.max (0 + e' - 53) (-1074) - e') as [|n|n] eqn:Hn; try lia;
      intros [= <- <-]; cbn [shr_m]; rewrite Z.sub_diag; cbn; lia.
  - cbn [Zdigits2]. pose proof (digits2_pos_bounds p) as [Hlow Hhigh].
    destruct (Z.eq_dec (Zpos p) (2 ^ 53)) as [Heq|Hne].
    + assert (Hp : p = 9007199254740992%positive) by lia. subst p.
      change (digits2_pos 9007199254740992) with 54%positive.
      replace (Z.max (54 + e' - 53) (-1074) - e') with 1 by lia.
      intros [= <- <-]. cbn [SpecFloat.iter_pos shr_1 shr_m].
      replace (e' + 1 - e') with 1 by lia. cbn. lia.
    + assert (Hd : Zpos (digits2_pos p) <= 53).
      { assert (Hlt : 2 ^ (Zpos (digits2_pos p) - 1) < 2 ^ 53) by lia.
        apply pow2_lt_mono in Hlt; lia. }
      destruct (Z.max (Zpos (digits2_pos p) + e' - 53) (-1074) - e')
        as [|n|n] eqn:Hn; try lia;
        intros [= <- <-]; cbn [shr_m]; rewrite Z.sub_diag; cbn; lia.
Qed.

Lemma to_Q_finite (s : bool) (m : positive) (e : Z) :
  (to_Q (S754_finite s m e) == inject_Z (cond_Zopp s (Zpos m)) * 2 ^ e)%Q.
Proof.
  destruct e as [|p|k]; cbn [to_Q].
  - rewrite Z.pow_0_r, Z.mul_1_r. cbn [Qpower]. ring.
  - rewrite inject_Z_mult, Zpower_Qpower by lia. reflexivity.
  - rewrite Qmake_Qdiv, Pos2Z.inj_pow, Zpower_Qpower by lia.
    change (Z.neg k) with (- Z.pos k). rewrite Qpower_opp. reflexivity.
Qed.

Lemma Qpower_2_pos (e : Z) : (0 < 2 ^ e)%Q.
Proof. apply Qpower_0_lt. reflexivity. Qed.

(** The value [binary_round_aux] returns for an exact mantissa [m] and
    exponent [e]: [m1 * 2^(e + n)], where [n] is the number of bits
    dropped and [m1 * 2^n] is within half a unit of [m]. *)
Lemma binary_round_aux_value (s : bool) (m : positive) (e : Z) :
  exists m1 n,
    0 <= n /\ 0 <= m1
    /\ e + n = Z.max e (fexp prec emax (Zpos (digits2_pos m) + e))
    /\ Z.abs (2 * (m1 * 2 ^ n) - 2 * Zpos m) <= (if n =? 0 then 0 else 2 ^ n)
    /\ (e + n + 1 <= 971 ->
        is_finite (binary_round_aux prec emax s (Zpos m) e loc_Exact) = true
        /\ (to_Q (binary_round_aux prec emax s (Zpos m) e loc_Exact)
            == inject_Z (cond_Zopp s m1) * 2 ^ (e + n))%Q).
Proof.
  unfold binary_round_aux.
  destruct (shr_fexp prec emax (Zpos m) e loc_Exact) as [mrs e'] eqn:H1.
  destruct (first_stage m e mrs e' H1) as (n & Hn & He' & Hmax & Hm1 & Herr).
  set (m1 := round_nearest_even (shr_m mrs) (loc_of_shr_record mrs)) in *.
  destruct (shr_fexp prec emax m1 e' loc_Exact) as [mrs' e''] eqn:H2.
  destruct (second_stage m1 e' mrs' e'' Hm1) as (Hm'' & Heq & He'');
    [rewrite Hmax, fexp_eq; lia | exact H2 |].
  exists m1, n. rewrite <- He'.
  split; [exact Hn|]. split; [lia|]. split; [exact Hmax|]. split; [exact Herr|].
  intros Hfit.
  destruct (shr_m mrs') as [|m''|m''] eqn:Hm; [| |lia].
  - split; [reflexivity|]. rewrite <- Heq, Z.mul_0_l. cbn [to_Q].
    replace (cond_Zopp s 0) with 0 by (destruct s; reflexivity).
    generalize (2 ^ e')%Q. intros x. change (inject_Z 0) with 0%Q. ring.
  - replace (e'' <=? emax - prec) with true
      by (symmetry; apply Z.leb_le; unfold emax, prec; lia).
    split; [reflexivity|]. rewrite to_Q_finite, <- Heq.
    replace (cond_Zopp s (Zpos m'' * 2 ^ (e'' - e')))
      with (cond_Zopp s (Zpos m'') * 2 ^ (e'' - e')) by (destruct s; cbn; lia).
    rewrite inject_Z_mult, Zpower_Qpower by lia.
    replace e'' with ((e'' - e') + e') at 1 by lia.
    rewrite Qpower_plus by discriminate.
    change (inject_Z 2) with 2%Q.
    generalize (2 ^ e')%Q (2 ^ (e'' - e'))%Q. intros x y. ring.
Qed.

Lemma ten_pow_10_eq : ten_pow_10 = S754_finite false 5242880000000000 (-19).
Proof. reflexivity. Qed.

Lemma Qabs_inject_Z_cond_Zopp (s : bool) (z : Z) :
  Qabs (inject_Z (cond_Zopp s z)) = inject_Z (Z.abs z).
Proof. destruct s; cbn [cond_Zopp]; unfold Qabs, inject_Z; cbn; f_equal; lia. Qed.

Lemma cond_Zopp_sub (s : bool) (a b : Z) :
  cond_Zopp s a - cond_Zopp s b = cond_Zopp s (a - b).
Proof. destruct s; cbn; lia. Qed.

(** The binary64 product of a float below [10^8] in absolute value and
    [10^10] is finite and within 64 of the exact product. *)
Lemma mul_ten_pow_10_error (s : bool) (m : positive) (e : Z) :
  (Qabs (to_Q (S754_finite s m e)) < inject_Z (10 ^ 8))%Q ->
  is_finite (mul (S754_finite s m e) ten_pow_10) = true
  /\ (Qabs (to_Q (mul (S754_finite s m e) ten_pow_10)
            - to_Q (S754_finite s m e) * inject_Z (10 ^ 10)) <= 64)%Q.
Proof.
  intros Hsmall. rewrite ten_pow_10_eq. cbn [mul SFmul]. rewrite xorb_false_r.
  set (M := (m * 5242880000000000)%positive).
  set (E := e + -19).
  rewrite to_Q_finite in Hsmall |- *.
  rewrite Qabs_Qmult, Qabs_inject_Z_cond_Zopp, (Qabs_pos (2 ^ e)) in Hsmall
    by (apply Qlt_le_weak, Qpower_2_pos).
  change (Z.abs (Zpos m)) with (Zpos m) in Hsmall.
  (* the exact product is M * 2^E *)
  assert (Hexact :
    (inject_Z (cond_Zopp s (Zpos m)) * 2 ^ e * inject_Z (10 ^ 10)
     == inject_Z (cond_Zopp s (Zpos M)) * 2 ^ E)%Q).
  { unfold M, E. rewrite Qpower_plus by discriminate.
    replace (cond_Zopp s (Zpos (m * 5242880000000000)))
      with (cond_Zopp s (Zpos m) * 5242880000000000) by (destruct s; cbn; lia).
    rewrite inject_Z_mult.
    assert (Hten : (inject_Z (10 ^ 10) == inject_Z 5242880000000000 * 2 ^ (-19))%Q)
      by reflexivity.
    rewrite Hten. generalize (2 ^ e)%Q (2 ^ (-19))%Q. intros x y. ring. }
  assert (Hbound : (inject_Z (Zpos M) * 2 ^ E < 2 ^ 60)%Q).
  { apply Qlt_trans with (inject_Z (10 ^ 18)); [|reflexivity].
    assert (HM : (inject_Z (Zpos M) * 2 ^ E
                  == inject_Z (Zpos m) * 2 ^ e * inject_Z (10 ^ 10))%Q).
    { unfold M, E. rewrite Qpower_plus by discriminate.
      rewrite Pos2Z.inj_mul, inject_Z_mult.
      assert (Hten : (inject_Z (10 ^ 10) == inject_Z 5242880000000000 * 2 ^ (-19))%Q)
        by reflexivity.
      rewrite Hten. generalize (2 ^ e)%Q (2 ^ (-19))%Q. intros x y. ring. }
    rewrite HM.
    change (inject_Z (10 ^ 18)) with (inject_Z (10 ^ 8) * inject_Z (10 ^ 10))%Q.
    apply Qmult_lt_compat_r; [reflexivity|exact Hsmall]. }
  pose proof (digits2_pos_bounds M) as [Hlow _].
  set (d := Zpos (digits2_pos M)) in *.
  assert (HdE : d + E <= 60).
  { assert (Hlt : (2 ^ (d - 1 + E) < 2 ^ 60)%Q).
    { eapply Qle_lt_trans; [|exact Hbound].
      rewrite Qpower_plus by discriminate.
      apply Qmult_le_compat_r; [|apply Qlt_le_weak, Qpower_2_pos].
      rewrite <- (Zpower_Qpower 2 (d - 1)) by lia.
      rewrite <- Zle_Qle. exact Hlow. }
    apply Qpower_lt_compat_l_inv in Hlt; [lia|reflexivity]. }
  assert (HE : E < 60).
  { assert (Hlt : (2 ^ E < 2 ^ 60)%Q).
    { eapply Qle_lt_trans; [|exact Hbound].
      rewrite <- (Qmult_1_l (2 ^ E)) at 1.
      apply Qmult_le_compat_r; [|apply Qlt_le_weak, Qpower_2_pos].
      change 1%Q with (inject_Z 1). rewrite <- Zle_Qle. lia. }
    apply Qpower_lt_compat_l_inv in Hlt; [lia|reflexivity]. }
  destruct (binary_round_aux_value s M E)
    as (m1 & n & Hn & Hm1 & Hmax & Herr & Hvalue).
  fold d in Hmax. rewrite fexp_eq in Hmax.
  destruct Hvalue as [Hfin Hval]; [lia|].
  split; [exact Hfin|].
  rewrite Hval, Hexact.
  rewrite Qpower_plus by discriminate.
  rewrite <- (Zpower_Qpower 2 n) by lia.
  assert (Hdiff :
    (inject_Z (cond_Zopp s m1) * (2 ^ E * inject_Z (2 ^ n))
     - inject_Z (cond_Zopp s (Zpos M)) * 2 ^ E
     == inject_Z (cond_Zopp s (m1 * 2 ^ n - Zpos M)) * 2 ^ E)%Q).
  { rewrite <- cond_Zopp_sub.
    replace (cond_Zopp s (m1 * 2 ^ n)) with (cond_Zopp s m1 * 2 ^ n)
      by (destruct s; cbn; lia).
    unfold Zminus. rewrite inject_Z_plus, inject_Z_opp, inject_Z_mult.
    generalize (2 ^ E)%Q. intros x. ring. }
  rewrite Hdiff, Qabs_Qmult, Qabs_inject_Z_cond_Zopp.
  rewrite (Qabs_pos (2 ^ E)) by (apply Qlt_le_weak, Qpower_2_pos).
  destruct (Z.eqb_spec n 0) as [-> | Hnz].
  - replace (Z.abs (m1 * 2 ^ 0 - Zpos M)) with 0 by lia.
    rewrite Qmult_0_l. discriminate.
  - assert (Hpow : (inject_Z (2 ^ n) * 2 ^ E <= 128)%Q).
    { rewrite Zpower_Qpower by lia. change (inject_Z 2) with 2%Q.
      rewrite <- Qpower_plus by discriminate.
      change 128%Q with (2 ^ 7)%Q.
      apply Qpower_le_compat_l; [lia|discriminate]. }
    assert (Hhalf : (inject_Z (2 * Z.abs (m1 * 2 ^ n - Zpos M)) * 2 ^ E
                     <= inject_Z (2 ^ n) * 2 ^ E)%Q).
    { apply Qmult_le_compat_r; [|apply Qlt_le_weak, Qpower_2_pos].
      rewrite <- Zle_Qle. lia. }
    rewrite inject_Z_mult in Hhalf.
    apply Qmult_le_r with (z := 2%Q); [reflexivity|].
    eapply Qle_trans; [|eapply Qle_trans; [exact Hhalf|exact Hpow]].
    apply Qle_lteq. right.
    generalize (2 ^ E)%Q (inject_Z (Z.abs (m1 * 2 ^ n - Zpos M))). intros x y.
    change (inject_Z 2) with 2%Q. ring.
Qed.

(** *** The bound *)

Lemma Qabs_triangle_sub (a b c : Q) :
  (Qabs (a - c) <= Qabs (a - b) + Qabs (b - c))%Q.
Proof.
  assert (E : (a - c == (a - b) + (b - c))%Q) by ring.
  rewrite E. apply Qabs_triangle.
Qed.

(** C8, amended. For every finite float [v] with [|v| < 10^8] the
    scaled value [z = int(np.round(v * 10000000000, 0))] is defined and
    [|descale z - v| <= 64.5 / 10^10]: [z] is within 1/2 of the binary64
    product [v * 10^10], and that product, being rounded to binary64, is
    within 64 of the exact product. *)
Theorem quantization_error_bound (value : float64) :
  is_finite value = true ->
  (Qabs (to_Q value) < inject_Z (10 ^ 8))%Q ->
  exists z,
    int_round_mul value ten_pow_10 = Ok z
    /\ (Qabs (inject_Z z - to_Q (mul value ten_pow_10)) <= 1 # 2)%Q
    /\ (Qabs (to_Q (mul value ten_pow_10) - to_Q value * inject_Z (10 ^ 10))
        <= 64)%Q
    /\ (Qabs (descale z - to_Q value) <= (129 # 2) / inject_Z (10 ^ 10))%Q.
Proof.
  intros Hfin Hsmall.
  assert (Hmul :
    is_finite (mul value ten_pow_10) = true
    /\ (Qabs (to_Q (mul value ten_pow_10) - to_Q value * inject_Z (10 ^ 10))
        <= 64)%Q).
  { destruct value as [s|s| |s m e]; try discriminate.
    - split; [reflexivity|]. cbn. discriminate.
    - apply mul_ten_pow_10_error, Hsmall. }
  destruct Hmul as [Hpfin Hperr].
  destruct (scalable_int_round_mul value Hpfin) as [z Hz].
  exists z. split; [exact Hz|].
  pose proof (to_int_np_round_error _ _ Hz) as Hround.
  split; [exact Hround|]. split; [exact Hperr|].
  assert (Htotal : (Qabs (inject_Z z - to_Q value * inject_Z (10 ^ 10)) <= 129 # 2)%Q).
  { eapply Qle_trans; [apply (Qabs_triangle_sub _ (to_Q (mul value ten_pow_10)))|].
    change (129 # 2)%Q with ((1 # 2) + 64)%Q.
    apply Qplus_le_compat; assumption. }
  assert (E : (descale z - to_Q value
               == (inject_Z z - to_Q value * inject_Z (10 ^ 10)) / inject_Z (10 ^ 10))%Q).
  { unfold descale. field. discriminate. }
  rewrite E. unfold Qdiv. rewrite Qabs_Qmult.
  rewrite (Qabs_pos (/ inject_Z (10 ^ 10))) by discriminate.
  apply Qmult_le_compat_r; [exact Htotal|discriminate].
Qed.

Lemma quantization_error_bound_witness :
  exists z,
    int_round_mul Sample.f_99999999_9 ten_pow_10 = Ok z
    /\ (Qabs (inject_Z z - to_Q (mul Sample.f_99999999_9 ten_pow_10)) <= 1 # 2)%Q
    /\ (Qabs (to_Q (mul Sample.f_99999999_9 ten_pow_10)
              - to_Q Sample.f_99999999_9 * inject_Z (10 ^ 10)) <= 64)%Q
    /\ (Qabs (descale z - to_Q Sample.f_99999999_9)
        <= (129 # 2) / inject_Z (10 ^ 10))%Q.
Proof.
  apply (quantization_error_bound Sample.f_99999999_9).
  - reflexivity.
  - vm_compute. reflexivity.
Defined.

(** C8 as stated fails: the float [99999999.9] is below [10^8] in
    absolute value, it scales to [999999999000000000], and the descaled
    value is farther than [0.5 / 10^10] from it. *)
Lemma quantization_bound_counterexample :
  (Qabs (to_Q Sample.f_99999999_9) < inject_Z (10 ^ 8))%Q
  /\ int_round_mul Sample.f_99999999_9 ten_pow_10 = Ok 999999999000000000
  /\ ~ (Qabs (descale 999999999000000000 - to_Q Sample.f_99999999_9)
        <= (1 # 2) / inject_Z (10 ^ 10))%Q.
Proof.
  split; [vm_compute; reflexivity|]. split; [vm_compute; reflexivity|].
  intros H. vm_compute in H. apply H. reflexivity.
Qed.

(** * Further properties *)

(** ** Languages the converter does not support *)

Lemma from_scaled_unsupported (self : XGBoostLanguageConverter) (z : Z) :
  supported self = false ->
  convert_number_to_fixed_point_from_scaled self z = Raise NotImplementedError.
Proof.
  unfold supported, convert_number_to_fixed_point_from_scaled.
  destruct (String.eqb (language self) "zokrates"); [discriminate|].
  destruct (String.eqb (language self) "rust"); [discriminate|reflexivity].
Qed.

Section Unsupported.

Variable self : XGBoostLanguageConverter.

Hypothesis other_language : supported self = false.

(** X1. For a language other than [zokrates] and [rust] no text is ever
    produced from a number or a tree: the four number converters raise,
    [_generate_tree_logic] raises on every node, and
    [convert_xgboost_to_code] raises as soon as one tree is under the cap. *)
Theorem unsupported_language_never_converts :
  (forall value, exists e, convert_number_to_fixed_point self value = Raise e)
  /\ (forall value, exists e, convert_number_to_field self value = Raise e)
  /\ (forall value, exists e, convert_number_to_input self value = Raise e)
  /\ (forall value rest, exists e,
        convert_test_data_to_field_list self (value :: rest) = Raise e)
  /\ (forall tree feature_indices depth, exists e,
        _generate_tree_logic self tree feature_indices depth = Raise e)
  /\ (forall tree rest feature_names num_trees,
        1 <= num_trees ->
        exists e,
          convert_xgboost_to_code self (tree :: rest) feature_names num_trees
          = Raise e).
Proof.
  assert (Hlang : String.eqb (language self) "zokrates" = false
                  /\ String.eqb (language self) "rust" = false).
  { unfold supported in other_language.
    destruct (String.eqb (language self) "zokrates"); [discriminate|].
    destruct (String.eqb (language self) "rust"); [discriminate|]. auto. }
  destruct Hlang as [Hzok Hrust].
  assert (Hfield : forall value, exists e,
             convert_number_to_field self value = Raise e).
  { intros value. unfold convert_number_to_field.
    destruct (int_round_mul value ten_pow_10); cbn [bind]; [|eauto].
    rewrite Hzok, Hrust. eauto. }
  assert (Htree : forall tree feature_indices depth, exists e,
             _generate_tree_logic self tree feature_indices depth = Raise e).
  { intros [[v|] split split_condition children] fi d; cbn [_generate_tree_logic].
    - raised_or_next. rewrite from_scaled_unsupported by assumption. cbn. eauto.
    - do 5 raised_or_next.
      rewrite from_scaled_unsupported by assumption. cbn. eauto. }
  split; [|split; [exact Hfield|split; [|split; [|split; [exact Htree|]]]]].
  - intros value. unfold convert_number_to_fixed_point.
    destruct (int_round_mul value _); cbn [bind]; [|eauto].
    rewrite Hzok, Hrust. eauto.
  - intros value. unfold convert_number_to_input.
    destruct (int_round_mul value ten_pow_10); cbn [bind]; [|eauto].
    rewrite Hzok, Hrust. eauto.
  - intros value rest. unfold convert_test_data_to_field_list.
    cbn [field_parts]. destruct (Hfield value) as [e ->]. cbn. eauto.
  - intros tree rest names k Hk. unfold convert_xgboost_to_code.
    cbn [tree_loop]. destruct (Z.leb_spec k 0) as [?|_]; [lia|].
    destruct (Htree tree (feature_names_to_indices names) 1) as [e ->].
    cbn. eauto.
Qed.

End Unsupported.

Lemma unsupported_language_never_converts_witness :
  exists e,
    convert_xgboost_to_code MoreSamples.solidity [Leaf Sample.f_0_25] ["rain"] 1
    = Raise e.
Proof.
  apply (unsupported_language_never_converts MoreSamples.solidity eq_refl).
  lia.
Defined.

(** ** The tree cap *)

Lemma tree_loop_cap (self : XGBoostLanguageConverter)
    (feature_indices : list string) (trees_dump : list tree_structure) :
  forall (k k' idx : Z) (tree_codes : list string),
    idx + Z.of_nat (length trees_dump) <= k ->
    idx + Z.of_nat (length trees_dump) <= k' ->
    tree_loop self trees_dump feature_indices k idx tree_codes
    = tree_loop self trees_dump feature_indices k' idx tree_codes.
Proof.
  induction trees_dump as [|t rest IH]; intros k k' idx acc Hk Hk';
    [reflexivity|].
  cbn [tree_loop]. cbn [length] in Hk, Hk'.
  destruct (Z.leb_spec k idx) as [?|_]; [lia|].
  destruct (Z.leb_spec k' idx) as [?|_]; [lia|].
  destruct (_generate_tree_logic self t feature_indices 1); cbn [bind];
    [|reflexivity].
  destruct (templates self !! "tree").
  - destruct (Py.format _ _); cbn [bind]; [|reflexivity]. apply IH; lia.
  - apply IH; lia.
Qed.

(** X2. The cap is clamped to the size of the dump: a cap below zero acts as
    zero (no tree is looked at, malformed trees included) and a cap above
    the number of trees acts as that number. *)
Theorem cap_is_clamped
    (self : XGBoostLanguageConverter) (trees_dump : list tree_structure)
    (feature_names : list string) (num_trees : Z) :
  convert_xgboost_to_code self trees_dump feature_names num_trees
  = convert_xgboost_to_code self trees_dump feature_names
      (Z.max 0 (Z.min num_trees (Z.of_nat (length trees_dump)))).
Proof.
  unfold convert_xgboost_to_code.
  destruct (Z.le_gt_cases num_trees 0) as [Hneg|Hpos].
  - replace (Z.max 0 (Z.min num_trees (Z.of_nat (length trees_dump)))) with 0
      by lia.
    destruct trees_dump as [|t rest]; [reflexivity|]. cbn [tree_loop].
    destruct (Z.leb_spec num_trees 0) as [_|?]; [reflexivity|lia].
  - destruct (Z.le_gt_cases (Z.of_nat (length trees_dump)) num_trees) as [Hge|Hlt].
    + rewrite (tree_loop_cap self _ trees_dump num_trees
                 (Z.max 0 (Z.min num_trees (Z.of_nat (length trees_dump)))) 0 [])
        by lia.
      reflexivity.
    + replace (Z.max 0 (Z.min num_trees (Z.of_nat (length trees_dump))))
        with num_trees by lia.
      reflexivity.
Qed.

(** A dump whose only tree is malformed converts under a cap of zero. *)
Example cap_of_zero_skips_malformed_tree :
  convert_xgboost_to_code Sample.main_only [MoreSamples.empty_node] ["rain"] 0
  = Ok ("fn predict() {" +:+ nl +:+ "}").
Proof. vm_compute. reflexivity. Qed.

(** ** A tree that fails under the cap *)

Section Abort.

Variable self : XGBoostLanguageConverter.
Variable feature_names : list string.

Hypothesis tree_template_formats :
  forall template tree_idx tree_logic,
    templates self !! "tree" = Some template ->
    is_ok (Py.format template
             {[ "tree_idx" := tree_idx; "tree_logic" := tree_logic ]}) = true.

Lemma tree_loop_aborts (before : list tree_structure) (bad : tree_structure)
    (after : list tree_structure) (e : exn) (num_trees : Z) :
  _generate_tree_logic self bad (feature_names_to_indices feature_names) 1
  = Raise e ->
  Forall (fun tree =>
            is_ok (_generate_tree_logic self tree
                     (feature_names_to_indices feature_names) 1) = true) before ->
  forall (idx : Z) (tree_codes : list string),
    idx + Z.of_nat (length before) < num_trees ->
    tree_loop self (before ++ bad :: after)
      (feature_names_to_indices feature_names) num_trees idx tree_codes
    = Raise e.
Proof.
  intros Hbad Hbefore. induction Hbefore as [|t rest Ht Hrest IH];
    intros idx acc Hidx; cbn [app tree_loop length] in *.
  - destruct (Z.leb_spec num_trees idx) as [?|_]; [lia|]. now rewrite Hbad.
  - destruct (Z.leb_spec num_trees idx) as [?|_]; [lia|].
    destruct (_generate_tree_logic self t _ 1) as [logic|]; [|discriminate].
    cbn [bind]. destruct (templates self !! "tree") as [template|] eqn:Htpl.
    + pose proof (tree_template_formats template (str idx) logic eq_refl) as Hf.
      destruct (Py.format template _); [|discriminate]. cbn [bind].
      apply IH. lia.
    + apply IH. lia.
Qed.

(** X3. When the trees before it compile, a tree under the cap that raises
    makes the whole conversion raise the same exception, and no text is
    returned: this holds with and without a [tree] template, and whatever
    comes after that tree. *)
Theorem failing_tree_aborts_conversion
    (before : list tree_structure) (bad : tree_structure)
    (after : list tree_structure) (e : exn) (num_trees : Z) :
  _generate_tree_logic self bad (feature_names_to_indices feature_names) 1
  = Raise e ->
  Forall (fun tree =>
            is_ok (_generate_tree_logic self tree
                     (feature_names_to_indices feature_names) 1) = true) before ->
  Z.of_nat (length before) < num_trees ->
  convert_xgboost_to_code self (before ++ bad :: after) feature_names num_trees
  = Raise e.
Proof.
  intros Hbad Hbefore Hk. unfold convert_xgboost_to_code.
  now rewrite (tree_loop_aborts before bad after e num_trees Hbad Hbefore 0 [])
    by lia.
Qed.

End Abort.

Lemma failing_tree_aborts_conversion_witness :
  convert_xgboost_to_code Sample.zokrates
    ([Sample.stump] ++ MoreSamples.empty_node :: [Leaf Sample.f_0_25]) ["rain"] 2
  = Raise (KeyError "split").
Proof.
  apply failing_tree_aborts_conversion.
  - intros template tree_idx tree_logic [= <-]. reflexivity.
  - reflexivity.
  - repeat constructor.
  - cbn. lia.
Defined.

(** ** Strings *)

Lemma append_cons (c : ascii) (s t : string) :
  String c s +:+ t = String c (s +:+ t).
Proof. reflexivity. Qed.

Lemma append_nil_r (s : string) : s +:+ EmptyString = s.
Proof.
  induction s as [|c s IH]; [reflexivity|]. now rewrite append_cons, IH.
Qed.

Lemma length_append (s t : string) :
  String.length (s +:+ t) = (String.length s + String.length t)%nat.
Proof.
  induction s as [|c s IH]; [reflexivity|].
  rewrite append_cons. cbn [String.length]. now rewrite IH.
Qed.

Lemma append_inj_r (s1 s2 t : string) : s1 +:+ t = s2 +:+ t -> s1 = s2.
Proof.
  revert s2. induction s1 as [|c1 s1 IH]; intros [|c2 s2] H.
  - reflexivity.
  - change (t = String c2 (s2 +:+ t)) in H.
    apply (f_equal String.length) in H. cbn [String.length] in H.
    rewrite length_append in H. lia.
  - change (String c1 (s1 +:+ t) = t) in H.
    apply (f_equal String.length) in H. cbn [String.length] in H.
    rewrite length_append in H. lia.
  - rewrite !append_cons in H. injection H as -> H. f_equal. now apply IH.
Qed.

(** ** Literals of scaled values *)

Lemma str_inj (z1 z2 : Z) : str z1 = str z2 -> z1 = z2.
Proof.
  unfold str. intros H. apply DecimalZ.to_int_inj.
  assert (Hnonnil : forall z, Z.to_int z <> Decimal.Pos Decimal.Nil
                              /\ Z.to_int z <> Decimal.Neg Decimal.Nil).
  { intros [|p|p]; cbn; split; try discriminate;
      intros [= Hp]; now apply (DecimalPos.Unsigned.to_uint_nonnil p). }
  destruct (Hnonnil z1) as [H1 H1'], (Hnonnil z2) as [H2 H2'].
  pose proof (NilZero.isi _ H1 H1') as E1.
  pose proof (NilZero.isi _ H2 H2') as E2.
  rewrite H in E1. congruence.
Qed.

Lemma sign_magnitude_literal_inj (z1 z2 : Z) :
  sign_magnitude_literal z1 = sign_magnitude_literal z2 -> z1 = z2.
Proof.
  unfold sign_magnitude_literal. intros H.
  apply String.app_inj in H.
  destruct (Z.leb_spec 0 z1) as [H1|H1], (Z.leb_spec 0 z2) as [H2|H2];
    try discriminate H.
  - apply (String.app_inj "true"), (String.app_inj ", v: ") in H.
    apply append_inj_r, str_inj in H. lia.
  - apply (String.app_inj "false"), (String.app_inj ", v: ") in H.
    apply append_inj_r, str_inj in H. lia.
Qed.

Section Literals.

Variable self : XGBoostLanguageConverter.

Hypothesis language_supported : supported self = true.

(** X4. Two different scaled values never get the same literal: the
    sign/magnitude form and the signed form both determine the integer
    they were rendered from. *)
Theorem literals_are_distinct (z1 z2 : Z) :
  z1 <> z2 ->
  convert_number_to_fixed_point_from_scaled self z1
  <> convert_number_to_fixed_point_from_scaled self z2.
Proof.
  intros Hne H. apply Hne. revert H.
  unfold supported in language_supported.
  unfold convert_number_to_fixed_point_from_scaled.
  destruct (String.eqb (language self) "zokrates").
  - intros H. apply sign_magnitude_literal_inj. congruence.
  - destruct (String.eqb (language self) "rust"); [|discriminate].
    intros H.
    assert (H' : "from_scaled_i64(" +:+ str z1 +:+ ")"
                 = "from_scaled_i64(" +:+ str z2 +:+ ")") by congruence.
    apply (String.app_inj "from_scaled_i64(") in H'.
    now apply append_inj_r, str_inj in H'.
Qed.

End Literals.

Lemma literals_are_distinct_witness :
  convert_number_to_fixed_point_from_scaled Sample.zokrates 25
  <> convert_number_to_fixed_point_from_scaled Sample.zokrates (-25).
Proof. apply literals_are_distinct; [reflexivity|lia]. Defined.

(** ** The field list of a test vector *)

Lemma join_cons (sep x y : string) (l : list string) :
  Py.join sep (x :: y :: l) = x +:+ sep +:+ Py.join sep (y :: l).
Proof. reflexivity. Qed.

Lemma substring_append (s t : string) :
  substring 0 (String.length s) (s +:+ t) = s.
Proof.
  induction s as [|c s IH]; cbn [String.length].
  - destruct t; reflexivity.
  - rewrite append_cons. cbn [substring]. now rewrite IH.
Qed.

Lemma drop_last_3_append (s t : string) :
  String.length t = 3%nat -> CachedFeatures.drop_last_3 (s +:+ t) = s.
Proof.
  intros Ht. unfold CachedFeatures.drop_last_3.
  rewrite length_append, Ht.
  replace (String.length s + 3 - 3)%nat with (String.length s) by lia.
  apply substring_append.
Qed.

Section FieldList.

Variable self : XGBoostLanguageConverter.

Hypothesis sign_magnitude_dialect : language self = "zokrates".

Lemma field_of_scaled (value : float64) :
  convert_number_to_field self value
  = let! z := int_round_mul value ten_pow_10 in
    Ok (CachedFeatures.num2i64_field z).
Proof.
  unfold convert_number_to_field, CachedFeatures.num2i64_field.
  rewrite sign_magnitude_dialect.
  destruct (int_round_mul value ten_pow_10) as [z|]; [|reflexivity].
  cbn [bind String.eqb Ascii.eqb Bool.eqb]. now destruct (0 <=? z).
Qed.

Lemma field_parts_scaled (test_data : list float64) :
  field_parts self test_data
  = let! zs := scaled_values test_data in
    Ok (CachedFeatures.num2i64_field <$> zs).
Proof.
  unfold scaled_values.
  induction test_data as [|v rest IH]; [reflexivity|].
  cbn [field_parts fmap list_fmap collect]. rewrite field_of_scaled, IH.
  destruct (int_round_mul v ten_pow_10); [|reflexivity]. cbn [bind].
  destruct (collect _); reflexivity.
Qed.

Lemma quoted_field_tokens (z : Z) (zs : list Z) :
  dq +:+ Py.join (dq +:+ ", " +:+ dq) (CachedFeatures.num2i64_field <$> (z :: zs))
     +:+ dq
  = quoted_tokens (concat (field_tokens <$> (z :: zs))).
Proof.
  revert z. induction zs as [|z' zs IH]; intros z.
  - unfold quoted_tokens, field_tokens, CachedFeatures.num2i64_field.
    cbn [fmap list_fmap concat app Py.join String.concat].
    destruct (0 <=? z); cbn [str]; now rewrite ?append_assoc.
  - specialize (IH z').
    change (CachedFeatures.num2i64_field <$> z :: z' :: zs)
      with (CachedFeatures.num2i64_field z
              :: CachedFeatures.num2i64_field z'
              :: (CachedFeatures.num2i64_field <$> zs)).
    rewrite join_cons.
    change (CachedFeatures.num2i64_field z'
              :: (CachedFeatures.num2i64_field <$> zs))
      with (CachedFeatures.num2i64_field <$> z' :: zs).
    change (concat (field_tokens <$> z :: z' :: zs))
      with (field_tokens z ++ concat (field_tokens <$> z' :: zs)).
    unfold quoted_tokens in *.
    change (field_tokens z ++ concat (field_tokens <$> z' :: zs))
      with ((if 0 <=? z then "1" else "0")
              :: str (Z.abs z) :: concat (field_tokens <$> z' :: zs)).
    change (concat (field_tokens <$> z' :: zs))
      with ((if 0 <=? z' then "1" else "0")
              :: str (Z.abs z') :: concat (field_tokens <$> zs)) in *.
    cbn [fmap list_fmap] in *. do 2 rewrite join_cons. rewrite <- IH.
    unfold CachedFeatures.num2i64_field at 1.
    destruct (0 <=? z); cbn [str]; now rewrite ?append_assoc.
Qed.

(** X5. For the sign/magnitude dialect the field list of a non-empty vector
    is the quoted list of the sign token and the magnitude token of each
    scaled value, in the order of the vector: two tokens per value; when
    a value cannot be scaled, the exception of the first such value is
    raised. *)
Theorem field_list_is_quoted_tokens (value : float64) (rest : list float64) :
  convert_test_data_to_field_list self (value :: rest)
  = let! zs := scaled_values (value :: rest) in
    Ok (quoted_tokens (concat (field_tokens <$> zs))).
Proof.
  unfold convert_test_data_to_field_list.
  rewrite field_parts_scaled, sign_magnitude_dialect.
  unfold scaled_values. cbn [fmap list_fmap collect].
  destruct (int_round_mul value ten_pow_10) as [z|]; [|reflexivity].
  cbn [bind]. destruct (collect _) as [zs|]; [|reflexivity].
  cbn [bind String.eqb Ascii.eqb Bool.eqb]. f_equal.
  apply quoted_field_tokens.
Qed.

Lemma instr_loop_scaled (test_col : list float64) (instr : string) :
  CachedFeatures.instr_loop (test_col) instr
  = let! zs := scaled_values test_col in
    Ok (match zs with
        | [] => instr
        | _ => instr +:+ Py.join (dq +:+ ", " +:+ dq)
                         (CachedFeatures.num2i64_field <$> zs)
                 +:+ dq +:+ ", " +:+ dq
        end).
Proof.
  unfold scaled_values. revert instr.
  induction test_col as [|v rest IH]; intros instr; [reflexivity|].
  cbn [CachedFeatures.instr_loop fmap list_fmap collect].
  destruct (int_round_mul v ten_pow_10) as [z|]; [|reflexivity].
  cbn [bind]. rewrite IH.
  destruct (collect _) as [[|z' zs]|]; cbn [bind]; [| |reflexivity].
  - reflexivity.
  - change (CachedFeatures.num2i64_field <$> z :: z' :: zs)
      with (CachedFeatures.num2i64_field z
              :: CachedFeatures.num2i64_field z'
              :: (CachedFeatures.num2i64_field <$> zs)).
    rewrite join_cons.
    change (CachedFeatures.num2i64_field z'
              :: (CachedFeatures.num2i64_field <$> zs))
      with (CachedFeatures.num2i64_field <$> z' :: zs).
    now rewrite !append_assoc.
Qed.

(** X6. On every non-empty vector the notebook helper
    [test_col2i64_list_of_field] and the converter method
    [convert_test_data_to_field_list] of the sign/magnitude dialect give
    the same result: the same text, or the same exception. *)
Theorem helper_agrees_with_converter (value : float64) (rest : list float64) :
  CachedFeatures.test_col2i64_list_of_field (value :: rest)
  = convert_test_data_to_field_list self (value :: rest).
Proof.
  unfold CachedFeatures.test_col2i64_list_of_field,
    convert_test_data_to_field_list.
  rewrite instr_loop_scaled, field_parts_scaled, sign_magnitude_dialect.
  unfold scaled_values. cbn [fmap list_fmap collect].
  destruct (int_round_mul value ten_pow_10) as [z|]; [|reflexivity].
  cbn [bind]. destruct (collect _) as [zs|]; [|reflexivity].
  cbn [bind String.eqb Ascii.eqb Bool.eqb]. f_equal.
  rewrite <- (append_assoc dq (Py.join _ _)).
  rewrite <- (append_assoc (dq +:+ Py.join _ _) dq).
  rewrite drop_last_3_append by reflexivity.
  now rewrite !append_assoc.
Qed.

End FieldList.

Lemma field_list_is_quoted_tokens_witness :
  convert_test_data_to_field_list Sample.zokrates [Sample.f_1_5; Sample.f_neg_2]
  = let! zs := scaled_values [Sample.f_1_5; Sample.f_neg_2] in
    Ok (quoted_tokens (concat (field_tokens <$> zs))).
Proof. apply (field_list_is_quoted_tokens Sample.zokrates eq_refl). Defined.

Lemma helper_agrees_with_converter_witness :
  CachedFeatures.test_col2i64_list_of_field [Sample.f_1_5; Sample.f_neg_2]
  = convert_test_data_to_field_list Sample.zokrates
      [Sample.f_1_5; Sample.f_neg_2].
Proof. apply (helper_agrees_with_converter Sample.zokrates eq_refl). Defined.

(** On the empty vector the two differ: the helper cuts its opening quote
    away, the method closes it. *)
Example helper_differs_on_empty_vector :
  CachedFeatures.test_col2i64_list_of_field [] = Ok EmptyString
  /\ convert_test_data_to_field_list Sample.zokrates [] = Ok (dq +:+ dq).
Proof. split; reflexivity. Qed.

(** ** Scaling and the sign of the value *)

Lemma binary_round_aux_opp (s : bool) (m e : Z) (l : location) :
  binary_round_aux prec emax (negb s) m e l
  = SFopp (binary_round_aux prec emax s m e l).
Proof.
  unfold binary_round_aux.
  destruct (shr_fexp prec emax m e l) as [mrs e1].
  destruct (shr_fexp prec emax _ e1 loc_Exact) as [mrs' e2].
  destruct (shr_m mrs'); [reflexivity| |reflexivity].
  destruct (e2 <=? emax - prec); reflexivity.
Qed.

Lemma mul_opp (value multiplier : float64) :
  mul (SFopp value) multiplier = SFopp (mul value multiplier).
Proof.
  destruct multiplier as [sm|sm| |sm mm em], value as [sv|sv| |sv mv ev];
    cbn [SFopp mul SFmul]; try reflexivity;
    try (now destruct sv, sm).
  fold prec emax. rewrite <- binary_round_aux_opp. now destruct sv, sm.
Qed.

Lemma np_round_opp (x : float64) : np_round (SFopp x) = SFopp (np_round x).
Proof.
  destruct x as [s|s| |s m [|e|k]]; try reflexivity.
  cbn [SFopp np_round]. destruct (round_half_even _ _); reflexivity.
Qed.

Lemma to_int_opp (x : float64) :
  to_int (SFopp x) = let! z := to_int x in Ok (- z).
Proof.
  destruct x as [s|s| |s m e]; try reflexivity.
  cbn [SFopp to_int bind]. f_equal. destruct s; cbn [negb cond_Zopp]; lia.
Qed.

(** X7. Scaling is odd in the value, for every multiplier: the negated float
    scales to the negated integer, and raises exactly when the float
    itself does, with the same exception.  Rounding to the even
    neighbour and truncation are both symmetric about zero. *)
Theorem scaling_commutes_with_negation (value multiplier : float64) :
  int_round_mul (SFopp value) multiplier
  = let! z := int_round_mul value multiplier in Ok (- z).
Proof.
  unfold int_round_mul. now rewrite mul_opp, np_round_opp, to_int_opp.
Qed.

(** ** Values that scale without error *)

Lemma pow2_le_digits (p : positive) (b : Z) :
  0 <= b -> Zpos p < 2 ^ b -> Zpos (digits2_pos p) <= b.
Proof.
  intros Hb Hp. pose proof (digits2_pos_bounds p) as [Hlow _].
  assert (Hlt : 2 ^ (Zpos (digits2_pos p) - 1) < 2 ^ b) by lia.
  apply pow2_lt_mono in Hlt; lia.
Qed.

Lemma half_unit_multiple (a b P : Z) :
  0 < P -> Z.abs (2 * (a * P) - 2 * (b * P)) <= P -> a = b.
Proof. intros HP H. nia. Qed.

Lemma integral_within_half (z N : Z) (x : Q) :
  (x == inject_Z N)%Q -> (Qabs (inject_Z z - x) <= 1 # 2)%Q -> z = N.
Proof.
  intros Hx H. rewrite Hx in H.
  unfold Qminus in H. rewrite <- inject_Z_opp, <- inject_Z_plus in H.
  unfold Qabs, Qle, inject_Z in H. cbn [Qnum Qden] in H. lia.
Qed.

(** The binary64 product of [k * 2^j * 2^e], [k] below [2^29], and
    [10^10] is exact. *)
Lemma mul_ten_pow_10_exact (s : bool) (m k : positive) (j e : Z) :
  Zpos m = Zpos k * 2 ^ j ->
  0 <= j ->
  Zpos k < 2 ^ 29 ->
  -10 <= e + j <= 960 ->
  is_finite (mul (S754_finite s m e) ten_pow_10) = true
  /\ (to_Q (mul (S754_finite s m e) ten_pow_10)
      == inject_Z (cond_Zopp s (Zpos k * 5 ^ 10 * 2 ^ (e + j + 10))))%Q.
Proof.
  intros Hm Hj Hk Hp. rewrite ten_pow_10_eq. cbn [mul SFmul].
  rewrite xorb_false_r.
  set (M := (m * 5242880000000000)%positive).
  set (E := e + -19).
  assert (HM : Zpos M = Zpos k * 5 ^ 10 * 2 ^ (j + 29)).
  { unfold M. rewrite Pos2Z.inj_mul, Hm, Z.pow_add_r by lia.
    change 5242880000000000 with (5 ^ 10 * 2 ^ 29). ring. }
  assert (Hpowj : 0 < 2 ^ j) by (apply Z.pow_pos_nonneg; lia).
  assert (Hd : Zpos (digits2_pos M) <= j + 82).
  { apply pow2_le_digits; [lia|]. rewrite HM.
    replace (j + 82) with (53 + (j + 29)) by lia.
    rewrite (Z.pow_add_r 2 53) by lia.
    apply Z.mul_lt_mono_pos_r; [apply Z.pow_pos_nonneg; lia|].
    change (5 ^ 10) with 9765625. change (2 ^ 53) with 9007199254740992.
    change (2 ^ 29) with 536870912 in Hk. lia. }
  destruct (binary_round_aux_value s M E)
    as (m1 & n & Hn & Hm1 & Hmax & Herr & Hvalue).
  rewrite fexp_eq in Hmax.
  assert (Hnj : n <= j + 29) by (unfold E in Hmax; lia).
  destruct Hvalue as [Hfin Hval]; [unfold E in *; lia|].
  split; [exact Hfin|].
  assert (Hexact : m1 * 2 ^ n = Zpos M).
  { destruct (Z.eqb_spec n 0) as [-> | Hnz]; [lia|].
    assert (Hsplit : Zpos M = Zpos k * 5 ^ 10 * 2 ^ (j + 29 - n) * 2 ^ n).
    { rewrite HM. replace (j + 29) with (j + 29 - n + n) at 1 by lia.
      rewrite Z.pow_add_r by lia. ring. }
    rewrite Hsplit in Herr |- *. f_equal.
    apply (half_unit_multiple _ _ (2 ^ n)); [apply Z.pow_pos_nonneg; lia|].
    exact Herr. }
  rewrite Hval.
  replace (cond_Zopp s m1) with (cond_Zopp s 1 * m1) by (destruct s; cbn; lia).
  replace (cond_Zopp s (Zpos k * 5 ^ 10 * 2 ^ (e + j + 10)))
    with (cond_Zopp s 1 * (Zpos k * 5 ^ 10 * 2 ^ (e + j + 10)))
    by (destruct s; cbn [cond_Zopp]; lia).
  rewrite !inject_Z_mult, <- !Qmult_assoc.
  apply Qmult_comp; [reflexivity|].
  (* m1 * 2^(E + n) = M * 2^E = k * 5^10 * 2^(e + j + 10) *)
  rewrite (Qpower_plus 2 E n) by discriminate.
  assert (Hm1n : (inject_Z m1 * 2 ^ n == inject_Z (Zpos M))%Q).
  { rewrite <- Hexact, inject_Z_mult, Zpower_Qpower by lia. reflexivity. }
  assert (Hstep : (inject_Z m1 * (2 ^ E * 2 ^ n)
                   == inject_Z (Zpos M) * 2 ^ E)%Q).
  { rewrite <- Hm1n. generalize (2 ^ E)%Q (2 ^ n)%Q. intros x y. ring. }
  rewrite Hstep, HM.
  replace (j + 29) with ((e + j + 10) + 19 + - e) by lia.
  rewrite !inject_Z_mult, !Zpower_Qpower by lia.
  unfold E. change (inject_Z 2) with 2%Q.
  rewrite !Qpower_plus by discriminate.
  rewrite (Qpower_opp 2 e).
  assert (H2e : ~ (2 ^ e == 0)%Q).
  { intros H0. pose proof (Qpower_2_pos e) as Hpos. rewrite H0 in Hpos.
    discriminate. }
  change (2 ^ (-19))%Q with (/ 2 ^ 19)%Q.
  generalize H2e. generalize (2 ^ e)%Q (2 ^ (e + j + 10))%Q. intros x y Hx.
  field. exact Hx.
Qed.

(** X8. A float [+-k * 2^(j + e)] with [k < 2^29] that is a multiple of
    [2^-10] (and below [2^989]) is scaled without any error: the scaled integer is exactly [+-k * 2^(j + e) * 10^10],
    and descaling it gives the float back.  This covers every integer
    below [2^29] in absolute value and its halves, quarters, ... down to
    multiples of [1/1024] below [2^19]. *)
Theorem short_values_scale_exactly (s : bool) (m k : positive) (j e : Z) :
  Zpos m = Zpos k * 2 ^ j ->
  0 <= j ->
  Zpos k < 2 ^ 29 ->
  -10 <= e + j <= 960 ->
  int_round_mul (S754_finite s m e) ten_pow_10
  = Ok (cond_Zopp s (Zpos k * 5 ^ 10 * 2 ^ (e + j + 10)))
  /\ (descale (cond_Zopp s (Zpos k * 5 ^ 10 * 2 ^ (e + j + 10)))
      == to_Q (S754_finite s m e))%Q.
Proof.
  intros Hm Hj Hk Hp.
  destruct (mul_ten_pow_10_exact s m k j e Hm Hj Hk Hp) as [Hfin Hval].
  destruct (scalable_int_round_mul (S754_finite s m e) Hfin) as [z Hz].
  pose proof (to_int_np_round_error _ _ Hz) as Hround.
  apply (integral_within_half _ _ _ Hval) in Hround. subst z.
  split; [exact Hz|].
  unfold descale. rewrite to_Q_finite.
  replace (cond_Zopp s (Zpos k * 5 ^ 10 * 2 ^ (e + j + 10)))
    with (cond_Zopp s 1 * (Zpos k * 5 ^ 10 * 2 ^ (e + j + 10)))
    by (destruct s; cbn [cond_Zopp]; lia).
  replace (cond_Zopp s (Zpos m)) with (cond_Zopp s 1 * Zpos m)
    by (destruct s; cbn [cond_Zopp]; lia).
  rewrite Hm, !inject_Z_mult, !Zpower_Qpower by lia.
  change (inject_Z 2) with 2%Q.
  replace (e + j + 10) with (e + (j + 10)) by lia.
  rewrite (Qpower_plus 2 e) by discriminate.
  rewrite (Qpower_plus 2 j 10) by discriminate.
  generalize (2 ^ e)%Q (2 ^ j)%Q (inject_Z (cond_Zopp s 1)) (inject_Z (Zpos k)).
  intros x y sg q.
  change (inject_Z (10 ^ 10)) with (inject_Z 5 ^ 10 * 2 ^ 10)%Q.
  field.
Qed.

Lemma short_values_scale_exactly_witness :
  int_round_mul Sample.f_1_5 ten_pow_10
  = Ok (cond_Zopp false (3 * 5 ^ 10 * 2 ^ (-52 + 51 + 10)))
  /\ (descale (cond_Zopp false (3 * 5 ^ 10 * 2 ^ (-52 + 51 + 10)))
      == to_Q Sample.f_1_5)%Q.
Proof.
  apply (short_values_scale_exactly false 6755399441055744 3 51 (-52));
    [reflexivity | lia | reflexivity | lia].
Defined.

(** ** Default feature names *)

Ltac read_digit :=
  cbn [NilEmpty.string_of_uint Pos.of_uint Pos.of_uint_acc Decimal.nb_digits
       Py.digits];
  match goal with
  | |- context [Py.is_digit ?c] => change (Py.is_digit c) with true
  end;
  cbv iota;
  match goal with
  | |- context [Py.digit_value ?c] =>
      let v := eval vm_compute in (Py.digit_value c) in
      change (Py.digit_value c) with v
  end.

Lemma digits_acc (d : Decimal.uint) (p : positive) (count : nat) :
  Py.digits (NilEmpty.string_of_uint d) (Zpos p) count true
  = Some (Zpos (Pos.of_uint_acc d p), (count + Decimal.nb_digits d)%nat).
Proof.
  revert p count.
  induction d as [|d IH|d IH|d IH|d IH|d IH|d IH|d IH|d IH|d IH|d IH];
    intros p count;
    [cbn [NilEmpty.string_of_uint Py.digits Pos.of_uint_acc Decimal.nb_digits];
     now rewrite Nat.add_0_r|..];
    read_digit;
    match goal with
    | |- Py.digits _ ?a _ _ = Some (Zpos (Pos.of_uint_acc _ ?q), _) =>
        replace a with (Zpos q) by lia
    end;
    rewrite IH; do 2 f_equal; lia.
Qed.

Lemma digits_zero (d : Decimal.uint) (count : nat) :
  Py.digits (NilEmpty.string_of_uint d) 0 count true
  = Some (Z.of_N (Pos.of_uint d), (count + Decimal.nb_digits d)%nat).
Proof.
  revert count.
  induction d as [|d IH|d IH|d IH|d IH|d IH|d IH|d IH|d IH|d IH|d IH];
    intros count;
    [cbn [NilEmpty.string_of_uint Py.digits Pos.of_uint Decimal.nb_digits];
     now rewrite Nat.add_0_r
    |read_digit; change (10 * 0 + 0) with 0; rewrite IH; do 2 f_equal; lia
    |..].
  all: read_digit;
    match goal with
    | |- Py.digits _ ?a _ _ = _ =>
        let v := eval vm_compute in a in change a with v
    end;
    rewrite digits_acc; cbn [Z.of_N]; do 2 f_equal; lia.
Qed.

Lemma digits_first (d : Decimal.uint) (acc : Z) (count : nat) :
  d <> Decimal.Nil ->
  Py.digits (NilEmpty.string_of_uint d) acc count false
  = Py.digits (NilEmpty.string_of_uint d) acc count true.
Proof. destruct d; [congruence|reflexivity..]. Qed.

Lemma rstrip_digits (d : Decimal.uint) :
  Py.rstrip (NilEmpty.string_of_uint d) = NilEmpty.string_of_uint d.
Proof.
  induction d; [reflexivity|..];
    cbn [NilEmpty.string_of_uint Py.rstrip]; rewrite IHd;
    now destruct (NilEmpty.string_of_uint d).
Qed.

Lemma strip_digits (d : Decimal.uint) :
  Py.strip (NilEmpty.string_of_uint d) = NilEmpty.string_of_uint d.
Proof.
  unfold Py.strip.
  replace (Py.lstrip (NilEmpty.string_of_uint d))
    with (NilEmpty.string_of_uint d) by now destruct d.
  apply rstrip_digits.
Qed.

Lemma strip_minus_digits (d : Decimal.uint) :
  Py.strip (String "-" (NilEmpty.string_of_uint d))
  = String "-" (NilEmpty.string_of_uint d).
Proof.
  unfold Py.strip. change (Py.lstrip (String "-" ?s)) with (String "-" s).
  cbn [Py.rstrip]. rewrite rstrip_digits.
  now destruct (NilEmpty.string_of_uint d).
Qed.

Lemma length_string_of_uint (d : Decimal.uint) :
  String.length (NilEmpty.string_of_uint d) = Decimal.nb_digits d.
Proof. induction d; cbn; congruence. Qed.

(** [int(str(i)) == i], as long as [str(i)] stays within the length
    Python accepts from a decimal literal. *)
Lemma int_str (i : Z) :
  (String.length (str i) <= Py.int_max_str_digits)%nat ->
  Py.int (str i) = Ok i.
Proof.
  unfold str. destruct i as [|p|p]; [reflexivity| |];
    cbn [Z.to_int NilZero.string_of_int];
    pose proof (DecimalPos.Unsigned.to_uint_nonnil p) as Hnil;
    pose proof (DecimalPos.Unsigned.of_to p) as Hval.
  - replace (NilZero.string_of_uint (Pos.to_uint p))
      with (NilEmpty.string_of_uint (Pos.to_uint p))
      by now destruct (Pos.to_uint p).
    rewrite length_string_of_uint. intros Hlen.
    unfold Py.int. rewrite strip_digits.
    replace (match NilEmpty.string_of_uint (Pos.to_uint p) with
             | String "-" r => (true, r)
             | String "+" r => (false, r)
             | r => (false, r)
             end)
      with (false, NilEmpty.string_of_uint (Pos.to_uint p))
      by now destruct (Pos.to_uint p).
    rewrite digits_first, digits_zero by assumption. rewrite Hval.
    cbn [Nat.add Z.of_N].
    destruct (Nat.ltb_spec Py.int_max_str_digits (Decimal.nb_digits (Pos.to_uint p)));
      [lia|reflexivity].
  - replace (NilZero.string_of_uint (Pos.to_uint p))
      with (NilEmpty.string_of_uint (Pos.to_uint p))
      by now destruct (Pos.to_uint p).
    cbn [String.length]. rewrite length_string_of_uint. intros Hlen.
    unfold Py.int. rewrite strip_minus_digits.
    rewrite digits_first, digits_zero by assumption. rewrite Hval.
    cbn [Nat.add Z.of_N].
    destruct (Nat.ltb_spec Py.int_max_str_digits (Decimal.nb_digits (Pos.to_uint p)));
      [lia|reflexivity].
Qed.

Section DefaultNames.

Variable self : XGBoostLanguageConverter.
Variable feature_names : list string.

Hypothesis language_supported : supported self = true.

(** X9. A split named by one character followed by the decimal text of [i],
    as XGBoost names features [f0], [f1], ... by default, with
    [0 <= i < F] over a list of [F] feature names: the text after the
    first character reads back as [i], whatever that character is, and
    when the threshold can be scaled and both children compile, the split
    compiles to a comparison on [f[i]], the index being printed exactly as
    it stands in the name. *)
Theorem default_name_selects_its_index
    (c : ascii) (i : Z) (threshold_value : float64)
    (yes no : tree_structure) (others : list tree_structure)
    (depth : Z) (yes_code no_code : string) :
  0 <= i < Z.of_nat (length feature_names) ->
  (String.length (str i) <= Py.int_max_str_digits)%nat ->
  scalable threshold_value = true ->
  _generate_tree_logic self yes (feature_names_to_indices feature_names)
    (depth + 1) = Ok yes_code ->
  _generate_tree_logic self no (feature_names_to_indices feature_names)
    (depth + 1) = Ok no_code ->
  Py.int (Py.drop_first (String c (str i))) = Ok i
  /\ exists threshold,
      _generate_tree_logic self
        (Dict None (Some (String c (str i))) (Some threshold_value)
           (Some (yes :: no :: others)))
        (feature_names_to_indices feature_names) depth
      = Ok (indent_of self depth
              +:+ condition self depth (str i) threshold +:+ nl
              +:+ yes_code
              +:+ indent_of self depth +:+ "} else {" +:+ nl
              +:+ no_code
              +:+ closing self depth).
Proof.
  intros Hi Hlen Hthr Hy Hn.
  pose proof (int_str i Hlen) as Hint.
  split; [exact Hint|].
  destruct (getitem_nonneg (feature_names_to_indices feature_names) i)
    as (x & Hget & Hx).
  { unfold feature_names_to_indices. rewrite length_range_strs. lia. }
  unfold feature_names_to_indices in Hx.
  rewrite range_strs_lookup in Hx by lia.
  injection Hx as <-.
  destruct (scalable_int_round_mul threshold_value Hthr) as [z Hz].
  destruct (from_scaled_supported self z language_supported) as [thr Hlit].
  exists thr.
  cbn [_generate_tree_logic item bind Py.drop_first]. rewrite Hint; cbn [bind].
  rewrite Hget; cbn [bind]. rewrite Hz; cbn [bind]. rewrite Hlit; cbn [bind].
  rewrite Hy; cbn [bind]. rewrite Hn; cbn [bind].
  now rewrite !append_assoc.
Qed.

End DefaultNames.

Lemma default_name_selects_its_index_witness :
  Py.int (Py.drop_first (String "f" (str 1))) = Ok 1
  /\ exists threshold,
      _generate_tree_logic Sample.zokrates
        (Dict None (Some (String "f" (str 1))) (Some Sample.f_1_5)
           (Some [Leaf Sample.f_0_1; Leaf Sample.f_neg_0_2]))
        (feature_names_to_indices ["rain"; "wind"]) 1
      = Ok (indent_of Sample.zokrates 1
              +:+ condition Sample.zokrates 1 (str 1) threshold +:+ nl
              +:+ ("         i64{sgn:true, v: 1000000000}" +:+ nl)
              +:+ indent_of Sample.zokrates 1 +:+ "} else {" +:+ nl
              +:+ ("         i64{sgn:false, v: 2000000000}" +:+ nl)
              +:+ closing Sample.zokrates 1).
Proof.
  apply (default_name_selects_its_index Sample.zokrates ["rain"; "wind"]
           eq_refl "f" 1 Sample.f_1_5 (Leaf Sample.f_0_1)
           (Leaf Sample.f_neg_0_2) [] 1
           ("         i64{sgn:true, v: 1000000000}" +:+ nl)
           ("         i64{sgn:false, v: 2000000000}" +:+ nl));
    [cbn; lia | vm_compute; lia | reflexivity | reflexivity | reflexivity].
Defined.

(** ** Braces of the generated tree code *)

Lemma brace_balance_append (s t : string) :
  brace_balance (s +:+ t) = brace_balance s + brace_balance t.
Proof.
  induction s as [|c s IH]; [now destruct t|].
  rewrite append_cons. cbn [brace_balance]. rewrite IH. lia.
Qed.

Lemma brace_balance_uint (d : Decimal.uint) :
  brace_balance (NilEmpty.string_of_uint d) = 0.
Proof. induction d; cbn [NilEmpty.string_of_uint brace_balance]; now rewrite ?IHd. Qed.

Lemma brace_balance_str (z : Z) : brace_balance (str z) = 0.
Proof.
  unfold str. destruct z as [|p|p]; [reflexivity| |];
    cbn [Z.to_int NilZero.string_of_int brace_balance];
    (replace (NilZero.string_of_uint (Pos.to_uint p))
       with (NilEmpty.string_of_uint (Pos.to_uint p))
       by (pose proof (DecimalPos.Unsigned.to_uint_nonnil p);
           now destruct (Pos.to_uint p)));
    now rewrite brace_balance_uint.
Qed.

Lemma brace_balance_repeat (s : string) (n : nat) :
  brace_balance s = 0 -> brace_balance (Py.repeat_str s n) = 0.
Proof.
  intros Hs. induction n as [|n IH]; [reflexivity|].
  cbn [Py.repeat_str]. rewrite brace_balance_append. lia.
Qed.

Lemma brace_balance_indent (self : XGBoostLanguageConverter) (depth : Z) :
  brace_balance (indent_of self depth) = 0.
Proof.
  unfold indent_of, Py.str_mul. apply brace_balance_repeat.
  now destruct (String.eqb _ _).
Qed.

Lemma brace_balance_literal (self : XGBoostLanguageConverter) (z : Z)
    (literal : string) :
  convert_number_to_fixed_point_from_scaled self z = Ok literal ->
  brace_balance literal = 0.
Proof.
  unfold convert_number_to_fixed_point_from_scaled, sign_magnitude_literal.
  destruct (String.eqb _ "zokrates"); [|destruct (String.eqb _ "rust")];
    intros H; [| |discriminate];
    apply (f_equal (fun r => match r with Ok s => s | Raise _ => literal end)) in H;
    subst literal; rewrite !brace_balance_append, brace_balance_str;
    [now destruct (0 <=? z)|reflexivity].
Qed.

Lemma brace_balance_condition (self : XGBoostLanguageConverter) (depth : Z)
    (feature_index threshold : string) :
  brace_balance feature_index = 0 ->
  brace_balance threshold = 0 ->
  brace_balance (condition self depth feature_index threshold) = 1.
Proof.
  intros Hf Ht. unfold condition.
  destruct (String.eqb _ _), (depth =? 1);
    rewrite !brace_balance_append, Hf, Ht; reflexivity.
Qed.

Lemma brace_balance_closing (self : XGBoostLanguageConverter) (depth : Z) :
  brace_balance (closing self depth) = -1.
Proof.
  unfold closing.
  destruct (String.eqb _ _), (depth =? 1);
    rewrite !brace_balance_append, !brace_balance_indent; reflexivity.
Qed.

Lemma getitem_Forall {A : Type} (P : A -> Prop) (l : list A) (i : Z) (x : A) :
  Forall P l -> Py.getitem l i = Ok x -> P x.
Proof.
  intros Hl. unfold Py.getitem.
  destruct (_ || _); [discriminate|].
  destruct (l !! _) as [y|] eqn:Hy; [|discriminate].
  intros [= <-]. rewrite Forall_lookup in Hl. eauto.
Qed.

Section Braces.

Variable self : XGBoostLanguageConverter.
Variable feature_indices : list string.

Hypothesis indices_without_braces :
  Forall (fun index => brace_balance index = 0) feature_indices.

(** X10. Whenever a tree compiles, over feature indices whose braces are
    balanced, the code of the tree has as many opening as closing braces,
    in every dialect, at every depth and for every shape of the tree. *)
Theorem tree_code_braces_balance (tree : tree_structure) (depth : Z)
    (code : string) :
  _generate_tree_logic self tree feature_indices depth = Ok code ->
  brace_balance code = 0.
Proof.
  revert depth code.
  induction tree as [leaf split split_condition children IH]
    using tree_structure_ind.
  intros depth code. destruct leaf as [leaf|].
  - cbn [_generate_tree_logic].
    destruct (int_round_mul leaf ten_pow_10) as [z|]; [|discriminate].
    cbn [bind].
    destruct (convert_number_to_fixed_point_from_scaled self z) as [lit|] eqn:Hlit;
      [|discriminate].
    apply brace_balance_literal in Hlit. cbn [bind].
    destruct (String.eqb _ _); intros [= <-];
      rewrite !brace_balance_append, Hlit, brace_balance_indent; reflexivity.
  - cbn [_generate_tree_logic].
    destruct (item "split" split) as [name|]; [|discriminate]. cbn [bind].
    destruct (Py.int _) as [i|]; [|discriminate]. cbn [bind].
    destruct (Py.getitem feature_indices i) as [index|] eqn:Hget;
      [|discriminate].
    apply (getitem_Forall _ _ _ _ indices_without_braces) in Hget.
    cbn [bind].
    destruct (item "split_condition" split_condition) as [value|];
      [|discriminate].
    cbn [bind].
    destruct (int_round_mul value ten_pow_10) as [z|]; [|discriminate].
    cbn [bind].
    destruct (convert_number_to_fixed_point_from_scaled self z) as [thr|] eqn:Hthr;
      [|discriminate].
    apply brace_balance_literal in Hthr. cbn [bind].
    destruct children as [[|yes [|no others]]|]; try discriminate.
    + destruct (_generate_tree_logic self yes _ _); discriminate.
    + cbn [kids] in IH.
      apply Forall_cons in IH as [IHyes IH].
      apply Forall_cons in IH as [IHno _].
      destruct (_generate_tree_logic self yes _ _) as [yes_code|] eqn:Hy;
        [|discriminate].
      cbn [bind].
      destruct (_generate_tree_logic self no _ _) as [no_code|] eqn:Hn;
        [|discriminate].
      cbn [bind]. intros [= <-].
      rewrite !brace_balance_append, !brace_balance_indent,
        (brace_balance_condition _ _ _ _ Hget Hthr), brace_balance_closing,
        (IHyes _ _ Hy), (IHno _ _ Hn).
      reflexivity.
Qed.

End Braces.

Lemma tree_code_braces_balance_witness :
  brace_balance
    ("    x = if i64_le(f[0], i64{sgn:true, v: 15000000000}) {" +:+ nl
       +:+ "         i64{sgn:true, v: 1000000000}" +:+ nl
       +:+ "    } else {" +:+ nl
       +:+ "         i64{sgn:false, v: 2000000000}" +:+ nl
       +:+ "     };" +:+ nl
       +:+ "     y = i64_add(y, x);" +:+ nl) = 0.
Proof.
  apply (tree_code_braces_balance Sample.zokrates ["0"]
           ltac:(repeat constructor) Sample.stump 1).
  reflexivity.
Defined.

(** ** Loading the templates *)

Lemma prefix_append (old rest : string) : String.prefix old (old +:+ rest) = true.
Proof.
  induction old as [|c old IH]; [now destruct rest|].
  rewrite append_cons. cbn [String.prefix].
  now destruct (ascii_dec c c).
Qed.

Lemma replace_from_skip (old new a rest : string) :
  PyStr.replace_from old new (a +:+ rest) (String.length a)
  = PyStr.replace_from old new rest 0.
Proof.
  induction a as [|c a IH]; [now destruct rest|].
  rewrite append_cons. cbn [String.length PyStr.replace_from]. exact IH.
Qed.

Lemma prefix_ending_in (c : ascii) (old s : string) :
  String.prefix (old +:+ String c EmptyString) s = true ->
  existsb (Ascii.eqb c) (list_ascii_of_string s) = true.
Proof.
  revert s. induction old as [|a old IH]; intros s;
    [change (EmptyString +:+ String c EmptyString) with (String c EmptyString)
    |rewrite append_cons];
    destruct s as [|b s];
    cbn [String.prefix list_ascii_of_string existsb]; try discriminate.
  - destruct (ascii_dec c b) as [->|]; [|discriminate].
    now rewrite Ascii.eqb_refl.
  - destruct (ascii_dec a b); [|discriminate].
    intros H. rewrite (IH _ H). apply orb_true_r.
Qed.

Lemma replace_from_absent (c : ascii) (old new s : string) :
  existsb (Ascii.eqb c) (list_ascii_of_string s) = false ->
  PyStr.replace_from (old +:+ String c EmptyString) new s 0 = s.
Proof.
  induction s as [|b s IH]; [reflexivity|].
  intros Habsent. cbn [PyStr.replace_from].
  destruct (String.prefix _ _) eqn:Hp.
  - apply prefix_ending_in in Hp. congruence.
  - cbn [list_ascii_of_string existsb] in Habsent.
    apply orb_false_elim in Habsent as [_ Habsent]. now rewrite IH.
Qed.

(** The file of a role is read back under the name of the role, whatever
    the language is called. *)
Lemma template_name_of_role (language role : string) :
  existsb (Ascii.eqb "_") (list_ascii_of_string (role +:+ ".template")) = false ->
  Files.template_name language (language +:+ "_" +:+ role +:+ ".template")
  = PyStr.replace (role +:+ ".template") ".template" EmptyString.
Proof.
  intros Hrole. unfold Files.template_name. f_equal.
  unfold PyStr.replace.
  assert (Hold : exists a old', language +:+ "_" = String a old')
    by (destruct language; cbn; eauto).
  destruct Hold as (a & old' & Hold).
  replace (match language +:+ "_" with
           | EmptyString => EmptyString +:+ PyStr.interleave EmptyString
                              (language +:+ "_" +:+ role +:+ ".template")
           | String _ _ =>
               PyStr.replace_from (language +:+ "_") EmptyString
                 (language +:+ "_" +:+ role +:+ ".template") 0
           end)
    with (PyStr.replace_from (language +:+ "_") EmptyString
            (language +:+ "_" +:+ role +:+ ".template") 0)
    by now rewrite Hold.
  rewrite <- (append_assoc language "_").
  generalize (role +:+ ".template") Hrole. intros rest Hrest.
  rewrite Hold at 2. rewrite append_cons. cbn [PyStr.replace_from].
  change (String a (old' +:+ rest)) with (String a old' +:+ rest).
  rewrite <- Hold, prefix_append.
  replace (String.length (language +:+ "_") - 1)%nat with (String.length old')
    by (rewrite Hold; cbn [String.length]; lia).
  rewrite replace_from_skip.
  change (EmptyString +:+ ?s) with s.
  now apply (replace_from_absent "_" language).
Qed.

(** X11. The dictionary of templates holds, under the name of each role, the
    text of the file [<language>_<role>.template] of the template
    directory when that file exists, and nothing else: the roles are
    header, main and tree, and cargo and test for Rust only; a role
    whose file is missing has no entry, and the name of the language
    never leaks into a key. *)
Theorem templates_are_keyed_by_role (language template_dir : string)
    (read_file : string -> option string) (role : string) :
  Files._load_templates language template_dir read_file !! role
  = if bool_decide (role ∈ ["header"; "main"; "tree"])
       || (String.eqb language "rust"
           && bool_decide (role ∈ ["cargo"; "test"]))
    then read_file
           (PyStr.path_join template_dir
              (language +:+ "_" +:+ role +:+ ".template"))
    else None.
Proof.
  pose proof (template_name_of_role language "header" eq_refl) as Hheader.
  pose proof (template_name_of_role language "main" eq_refl) as Hmain.
  pose proof (template_name_of_role language "tree" eq_refl) as Htree.
  pose proof (template_name_of_role language "cargo" eq_refl) as Hcargo.
  pose proof (template_name_of_role language "test" eq_refl) as Htest.
  change (PyStr.replace _ _ _) with "header" in Hheader.
  change (PyStr.replace _ _ _) with "main" in Hmain.
  change (PyStr.replace _ _ _) with "tree" in Htree.
  change (PyStr.replace _ _ _) with "cargo" in Hcargo.
  change (PyStr.replace _ _ _) with "test" in Htest.
  unfold Files._load_templates, Files.template_files.
  destruct (String.eqb language "rust"); cbn [app Files.load_loop andb];
    change (language +:+ "_header.template")
      with (language +:+ "_" +:+ "header" +:+ ".template");
    change (language +:+ "_main.template")
      with (language +:+ "_" +:+ "main" +:+ ".template");
    change (language +:+ "_tree.template")
      with (language +:+ "_" +:+ "tree" +:+ ".template");
    change (language +:+ "_cargo.template")
      with (language +:+ "_" +:+ "cargo" +:+ ".template");
    change (language +:+ "_test.template")
      with (language +:+ "_" +:+ "test" +:+ ".template");
    rewrite ?Hheader, ?Hmain, ?Htree, ?Hcargo, ?Htest.
  all: destruct (decide (role = "header")) as [->|?];
    [|destruct (decide (role = "main")) as [->|?];
      [|destruct (decide (role = "tree")) as [->|?];
        [|destruct (decide (role = "cargo")) as [->|?];
          [|destruct (decide (role = "test")) as [->|?]]]]];
    try (rewrite !bool_decide_eq_false_2
           by (intros Hin;
               repeat (apply elem_of_cons in Hin as [?|Hin]; [congruence|]);
               inversion Hin));
    try (rewrite (bool_decide_eq_true_2 (_ ∈ _)) by (repeat constructor));
    cbn [orb andb];
    repeat match goal with
           | |- context [match ?r with Some _ => _ | None => _ end] =>
               destruct r
           end;
    by simplify_map_eq.
Qed.

(** ** Saving the code *)

Lemma endswith_refl (s : string) : PyStr.endswith s s = true.
Proof. destruct s; cbn [PyStr.endswith]; now rewrite String.eqb_refl. Qed.

Lemma endswith_append (s suffix : string) :
  PyStr.endswith (s +:+ suffix) suffix = true.
Proof.
  induction s as [|c s IH].
  - change (EmptyString +:+ suffix) with suffix. apply endswith_refl.
  - rewrite append_cons. cbn [PyStr.endswith]. rewrite IH. apply orb_true_r.
Qed.

Lemma code_path_endswith (self : XGBoostLanguageConverter) (filename : string) :
  PyStr.endswith (Files.code_path self filename) (file_extension (config self))
  = true.
Proof.
  unfold Files.code_path.
  destruct (PyStr.endswith filename _) eqn:H; [exact H|apply endswith_append].
Qed.

Lemma endswith_append_both (s suffix rest : string) :
  PyStr.endswith s suffix = true ->
  PyStr.endswith (s +:+ rest) (suffix +:+ rest) = true.
Proof.
  induction s as [|c s IH]; cbn [PyStr.endswith].
  - rewrite orb_false_r. intros H. apply String.eqb_eq in H as <-.
    apply endswith_refl.
  - intros H. apply orb_prop in H as [H|H].
    + apply String.eqb_eq in H as <-. apply endswith_refl.
    + rewrite append_cons. cbn [PyStr.endswith]. rewrite (IH H).
      apply orb_true_r.
Qed.

Lemma manifest_path_endswith (directory : string) :
  directory <> EmptyString ->
  PyStr.endswith (PyStr.path_join directory "Cargo.toml") "/Cargo.toml" = true.
Proof.
  intros Hd. unfold PyStr.path_join. cbn [String.prefix].
  destruct (ascii_dec "/" "C"); [discriminate|].
  replace (String.eqb directory EmptyString) with false
    by (symmetry; now apply String.eqb_neq).
  cbn [orb]. destruct (PyStr.endswith directory "/") eqn:Hsep.
  - apply (endswith_append_both directory "/" "Cargo.toml" Hsep).
  - apply (endswith_append directory "/Cargo.toml").
Qed.

(** X12. The code is the first file written, under a name that ends with the
    configured extension; a name that has the extension is kept as it
    is, so saving under the name that was written writes the same files
    again.  A Rust converter that holds a cargo template always writes
    one more file, after the code: that template, to [Cargo.toml] in the
    directory of the code file ([.] when the name has none), a path that
    ends in [/Cargo.toml].  In every other case nothing else is
    written. *)
Theorem saved_name_has_extension (self : XGBoostLanguageConverter)
    (code filename : string) :
  exists path others,
    Files.save_code_to_file self code filename = (path, code) :: others
    /\ PyStr.endswith path (file_extension (config self)) = true
    /\ Files.save_code_to_file self code path
       = Files.save_code_to_file self code filename
    /\ (language self = "rust" ->
        forall cargo,
          templates self !! "cargo" = Some cargo ->
          exists manifest,
            others = [(manifest, cargo)]
            /\ manifest
               = PyStr.path_join
                   match PyStr.dirname path with
                   | EmptyString => "."
                   | directory => directory
                   end
                   "Cargo.toml"
            /\ PyStr.endswith manifest "/Cargo.toml" = true)
    /\ (language self <> "rust" \/ templates self !! "cargo" = None ->
        others = []).
Proof.
  pose proof (code_path_endswith self filename) as Hext.
  assert (Hsame : Files.code_path self (Files.code_path self filename)
                  = Files.code_path self filename)
    by (unfold Files.code_path at 1; now rewrite Hext).
  exists (Files.code_path self filename). eexists.
  split; [reflexivity|]. split; [exact Hext|].
  split; [unfold Files.save_code_to_file; now rewrite Hsame|].
  split.
  - intros Hrust cargo Hcargo.
    apply String.eqb_eq in Hrust. rewrite Hrust, Hcargo.
    eexists. split; [reflexivity|]. split; [reflexivity|].
    apply manifest_path_endswith.
    now destruct (PyStr.dirname _).
  - intros [Hother|Habsent].
    + apply String.eqb_neq in Hother. now rewrite Hother.
    + rewrite Habsent. now destruct (String.eqb _ _).
Qed.

Lemma saved_name_has_extension_witness :
  exists path manifest,
    Files.save_code_to_file MoreSamples.rust_with_cargo "fn main() {}"
      "out/model"
    = [(path, "fn main() {}"); (manifest, "[package]")]
    /\ PyStr.endswith manifest "/Cargo.toml" = true.
Proof.
  destruct (saved_name_has_extension MoreSamples.rust_with_cargo
              "fn main() {}" "out/model")
    as (path & others & Hsave & _ & _ & Hrust & _).
  destruct (Hrust eq_refl "[package]" eq_refl)
    as (manifest & Hothers & _ & Hend).
  exists path, manifest. rewrite Hsave, Hothers.
  split; [reflexivity|exact Hend].
Defined.

(** A Rust converter with a cargo template saving [model] writes
    [model.rs] and the manifest beside it. *)
Example save_with_manifest :
  Files.save_code_to_file MoreSamples.rust_with_cargo "fn main() {}" "out/model"
  = [("out/model.rs", "fn main() {}"); ("out/Cargo.toml", "[package]")].
Proof. reflexivity. Qed.

(** ** The cache of feature names *)

Section CacheRoundTrip.

Variable get_feature_names_instr_1 : result (list string * string).
Variable get_feature_names_instr_2 : result (list string * string).
Variable get_feature_names_instr_3 : result (list string * string).
Variable get_feature_names_instr_4 : bool -> result (list string * string).
Variable get_feature_names_instr_5 : bool -> result (list string * string).

Lemma load_entry_round_trip (model_num : Z) (use_xtra_features : bool) :
  1 <= model_num <= 5 ->
  Cache.load_entry
    get_feature_names_instr_1 get_feature_names_instr_2
    get_feature_names_instr_3 get_feature_names_instr_4
    get_feature_names_instr_5 model_num use_xtra_features None
  = let! _ :=
      Cache.save_feature_names_cache
        get_feature_names_instr_1 get_feature_names_instr_2
        get_feature_names_instr_3 get_feature_names_instr_4
        get_feature_names_instr_5 in
    Cache.get_feature_names_instr
      get_feature_names_instr_1 get_feature_names_instr_2
      get_feature_names_instr_3 get_feature_names_instr_4
      get_feature_names_instr_5 model_num
      (use_xtra_features && (4 <=? model_num)).
Proof.
  intros Hscope.
  assert (Hcases : model_num = 1 \/ model_num = 2 \/ model_num = 3
                   \/ model_num = 4 \/ model_num = 5) by lia.
  unfold Cache.load_entry, Cache.read_cache, Cache.save_feature_names_cache.
  cbn [Cache.plain_models Cache.xtra_models].
  unfold Cache.get_feature_names_instr.
  destruct Hcases as [->|[->|[->|[->| ->]]]];
    cbn [Z.eqb Pos.eqb Z.leb Z.compare Pos.compare Pos.compare_cont andb orb];
    destruct use_xtra_features; cbn [andb];
    cbn [Cache.cache_key Z.eqb Pos.eqb orb];
    destruct get_feature_names_instr_1 as [[names1 instr1]|]; try reflexivity;
    destruct get_feature_names_instr_2 as [[names2 instr2]|]; try reflexivity;
    destruct get_feature_names_instr_3 as [[names3 instr3]|]; try reflexivity;
    cbn [bind];
    destruct (get_feature_names_instr_4 true) as [[names4 instr4]|];
    try reflexivity;
    destruct (get_feature_names_instr_4 false) as [[names4' instr4']|];
    try reflexivity;
    destruct (get_feature_names_instr_5 true) as [[names5 instr5]|];
    try reflexivity;
    destruct (get_feature_names_instr_5 false) as [[names5' instr5']|];
    reflexivity.
Qed.

(** X13. Loading a model in scope when the cache file is missing first builds
    the whole cache, so an exception of any of the seven calls that fill
    it is raised; otherwise each of the three loaders returns its part of
    what [get_feature_names_instr] returns for that model: the keys the
    loaders compute are the keys the cache is written under.  For models
    1 to 3 the flag [use_xtra_features] is ignored; for models 4 and 5 it
    selects the entry. *)
Theorem cache_round_trip (model_num : Z) (use_xtra_features : bool) :
  1 <= model_num <= 5 ->
  let fresh :=
    let! _ :=
      Cache.save_feature_names_cache
        get_feature_names_instr_1 get_feature_names_instr_2
        get_feature_names_instr_3 get_feature_names_instr_4
        get_feature_names_instr_5 in
    Cache.get_feature_names_instr
      get_feature_names_instr_1 get_feature_names_instr_2
      get_feature_names_instr_3 get_feature_names_instr_4
      get_feature_names_instr_5 model_num
      (use_xtra_features && (4 <=? model_num)) in
  Cache.load_feature_names_from_cache
    get_feature_names_instr_1 get_feature_names_instr_2
    get_feature_names_instr_3 get_feature_names_instr_4
    get_feature_names_instr_5 model_num use_xtra_features None
  = (let! e := fresh in Ok (Cache.feature_names e))
  /\ Cache.load_instr_from_cache
       get_feature_names_instr_1 get_feature_names_instr_2
       get_feature_names_instr_3 get_feature_names_instr_4
       get_feature_names_instr_5 model_num use_xtra_features None
     = (let! e := fresh in Ok (Cache.instr e))
  /\ Cache.load_feature_names_and_instr_from_cache
       get_feature_names_instr_1 get_feature_names_instr_2
       get_feature_names_instr_3 get_feature_names_instr_4
       get_feature_names_instr_5 model_num use_xtra_features None
     = (let! e := fresh in Ok (Cache.feature_names e, Cache.instr e)).
Proof.
  intros Hscope fresh.
  unfold Cache.load_feature_names_from_cache, Cache.load_instr_from_cache,
    Cache.load_feature_names_and_instr_from_cache.
  now rewrite (load_entry_round_trip model_num use_xtra_features Hscope).
Qed.

Lemma key_of_other_model (model_num : Z) (digits : string) :
  Py.int digits <> Ok model_num ->
  (String.length digits <= 11)%nat ->
  "model_" +:+ digits <> "model_" +:+ str model_num.
Proof.
  intros Hint Hlen H. apply String.app_inj in H. subst digits.
  apply Hint, int_str. unfold Py.int_max_str_digits. lia.
Qed.

Lemma load_entry_out_of_scope (model_num : Z) (use_xtra_features : bool) :
  model_num < 1 \/ 5 < model_num ->
  Cache.load_entry
    get_feature_names_instr_1 get_feature_names_instr_2
    get_feature_names_instr_3 get_feature_names_instr_4
    get_feature_names_instr_5 model_num use_xtra_features None
  = let! _ :=
      Cache.save_feature_names_cache
        get_feature_names_instr_1 get_feature_names_instr_2
        get_feature_names_instr_3 get_feature_names_instr_4
        get_feature_names_instr_5 in
    Raise (KeyError ("model_" +:+ str model_num)).
Proof.
  intros Hscope.
  assert (H4 : (model_num =? 4) = false) by lia.
  assert (H5 : (model_num =? 5) = false) by lia.
  unfold Cache.load_entry, Cache.read_cache, Cache.cache_key.
  rewrite H4, H5. cbn [orb].
  destruct (Cache.save_feature_names_cache _ _ _ _ _) as [cache|] eqn:Hsave;
    [|reflexivity].
  cbn [bind].
  replace (cache !! ("model_" +:+ str model_num)) with (@None Cache.entry);
    [reflexivity|].
  symmetry. revert Hsave.
  unfold Cache.save_feature_names_cache.
  cbn [Cache.plain_models Cache.xtra_models].
  unfold Cache.get_feature_names_instr. cbn [Z.eqb Pos.eqb].
  destruct get_feature_names_instr_1; [|discriminate].
  destruct get_feature_names_instr_2; [|discriminate].
  destruct get_feature_names_instr_3; [|discriminate].
  destruct (get_feature_names_instr_4 true); [|discriminate].
  destruct (get_feature_names_instr_4 false); [|discriminate].
  destruct (get_feature_names_instr_5 true); [|discriminate].
  destruct (get_feature_names_instr_5 false); [|discriminate].
  cbn [bind]. intros [= <-].
  rewrite !lookup_insert_ne, lookup_empty; [reflexivity|..];
    (apply key_of_other_model;
     [match goal with
      | |- Py.int ?d <> _ =>
          let v := eval vm_compute in (Py.int d) in change (Py.int d) with v
      end;
      (discriminate || (intros [= <-]; lia))
     |vm_compute; lia]).
Qed.

(** X14. A model number outside 1..5 has no entry in the cache that
    [save_feature_names_cache] writes: when the cache file is missing and
    the cache can be built, each of the three loaders raises KeyError for
    its key [model_<n>], although [get_feature_names_instr] itself
    answers such a number with a pair of [None]. *)
Theorem model_out_of_scope_is_a_key_error
    (model_num : Z) (use_xtra_features : bool) (cache : gmap string Cache.entry) :
  model_num < 1 \/ 5 < model_num ->
  Cache.save_feature_names_cache
    get_feature_names_instr_1 get_feature_names_instr_2
    get_feature_names_instr_3 get_feature_names_instr_4
    get_feature_names_instr_5 = Ok cache ->
  Cache.get_feature_names_instr
    get_feature_names_instr_1 get_feature_names_instr_2
    get_feature_names_instr_3 get_feature_names_instr_4
    get_feature_names_instr_5 model_num use_xtra_features
  = Ok {| Cache.feature_names := None; Cache.instr := None |}
  /\ Cache.load_feature_names_from_cache
       get_feature_names_instr_1 get_feature_names_instr_2
       get_feature_names_instr_3 get_feature_names_instr_4
       get_feature_names_instr_5 model_num use_xtra_features None
     = Raise (KeyError ("model_" +:+ str model_num))
  /\ Cache.load_instr_from_cache
       get_feature_names_instr_1 get_feature_names_instr_2
       get_feature_names_instr_3 get_feature_names_instr_4
       get_feature_names_instr_5 model_num use_xtra_features None
     = Raise (KeyError ("model_" +:+ str model_num))
  /\ Cache.load_feature_names_and_instr_from_cache
       get_feature_names_instr_1 get_feature_names_instr_2
       get_feature_names_instr_3 get_feature_names_instr_4
       get_feature_names_instr_5 model_num use_xtra_features None
     = Raise (KeyError ("model_" +:+ str model_num)).
Proof.
  intros Hscope Hsave.
  assert (H1 : (model_num =? 1) = false) by lia.
  assert (H2 : (model_num =? 2) = false) by lia.
  assert (H3 : (model_num =? 3) = false) by lia.
  assert (H4 : (model_num =? 4) = false) by lia.
  assert (H5 : (model_num =? 5) = false) by lia.
  split.
  { unfold Cache.get_feature_names_instr. now rewrite H1, H2, H3, H4, H5. }
  unfold Cache.load_feature_names_from_cache, Cache.load_instr_from_cache,
    Cache.load_feature_names_and_instr_from_cache.
  rewrite (load_entry_out_of_scope model_num use_xtra_features Hscope), Hsave.
  auto.
Qed.

End CacheRoundTrip.

Lemma cache_round_trip_witness :
  Cache.load_feature_names_from_cache
    (Ok (["a"], "1")) (Ok (["b"], "2")) (Ok (["c"], "3"))
    (fun xtra => Ok (if xtra then ["d"; "x"] else ["d"], "4"))
    (fun xtra => Ok (if xtra then ["e"; "x"] else ["e"], "5"))
    4 true None
  = Ok (Some ["d"; "x"])
  /\ Cache.load_instr_from_cache
       (Ok (["a"], "1")) (Ok (["b"], "2")) (Ok (["c"], "3"))
       (fun xtra => Ok (if xtra then ["d"; "x"] else ["d"], "4"))
       (fun xtra => Ok (if xtra then ["e"; "x"] else ["e"], "5"))
       4 true None
     = Ok (Some "4")
  /\ Cache.load_feature_names_and_instr_from_cache
       (Ok (["a"], "1")) (Ok (["b"], "2")) (Ok (["c"], "3"))
       (fun xtra => Ok (if xtra then ["d"; "x"] else ["d"], "4"))
       (fun xtra => Ok (if xtra then ["e"; "x"] else ["e"], "5"))
       4 true None
     = Ok (Some ["d"; "x"], Some "4").
Proof.
  apply (cache_round_trip
           (Ok (["a"], "1")) (Ok (["b"], "2")) (Ok (["c"], "3"))
           (fun xtra => Ok (if xtra then ["d"; "x"] else ["d"], "4"))
           (fun xtra => Ok (if xtra then ["e"; "x"] else ["e"], "5"))
           4 true).
  lia.
Defined.

Lemma model_out_of_scope_is_a_key_error_witness :
  Cache.get_feature_names_instr
    (Ok (["a"], "1")) (Ok (["b"], "2")) (Ok (["c"], "3"))
    (fun xtra => Ok (if xtra then ["d"; "x"] else ["d"], "4"))
    (fun xtra => Ok (if xtra then ["e"; "x"] else ["e"], "5"))
    6 true
  = Ok {| Cache.feature_names := None; Cache.instr := None |}
  /\ Cache.load_feature_names_from_cache
       (Ok (["a"], "1")) (Ok (["b"], "2")) (Ok (["c"], "3"))
       (fun xtra => Ok (if xtra then ["d"; "x"] else ["d"], "4"))
       (fun xtra => Ok (if xtra then ["e"; "x"] else ["e"], "5"))
       6 true None
     = Raise (KeyError ("model_" +:+ str 6))
  /\ Cache.load_instr_from_cache
       (Ok (["a"], "1")) (Ok (["b"], "2")) (Ok (["c"], "3"))
       (fun xtra => Ok (if xtra then ["d"; "x"] else ["d"], "4"))
       (fun xtra => Ok (if xtra then ["e"; "x"] else ["e"], "5"))
       6 true None
     = Raise (KeyError ("model_" +:+ str 6))
  /\ Cache.load_feature_names_and_instr_from_cache
       (Ok (["a"], "1")) (Ok (["b"], "2")) (Ok (["c"], "3"))
       (fun xtra => Ok (if xtra then ["d"; "x"] else ["d"], "4"))
       (fun xtra => Ok (if xtra then ["e"; "x"] else ["e"], "5"))
       6 true None
     = Raise (KeyError ("model_" +:+ str 6)).
Proof.
  eapply (model_out_of_scope_is_a_key_error
            (Ok (["a"], "1")) (Ok (["b"], "2")) (Ok (["c"], "3"))
            (fun xtra => Ok (if xtra then ["d"; "x"] else ["d"], "4"))
            (fun xtra => Ok (if xtra then ["e"; "x"] else ["e"], "5"))
            6 true).
  - lia.
  - reflexivity.
Defined.
